(** * HackGULastRecodePatch: the resolution-table patch tool

    A shallow embedding of [HackGULastRecodePatch.py] and the properties of
    its signature parser, its byte search-and-replace engine and the
    arithmetic of its orchestrator.

    Conventions of the embedding.
    - A Python [int] is a [Z]; a [bytes] object is a [list byte]; a [str] is
      a [string] whose characters are read as code points below 256.
    - A raised exception is the [Raise] case of [result]; code that prints,
      reads or writes files runs in the state-and-exception monad [M] over
      [world].
    - [print] calls are recorded as structured [event]s, one constructor per
      call site, carrying the values the message is formatted from. *)

From Stdlib Require Import ZArith Lia Ascii String Strings.Byte.
From stdpp Require Import gmap strings.

Local Open Scope Z_scope.

(** ** Exceptions and fallible results *)

Inductive exn : Type :=
  | ValueError
  | OverflowError
  | IndexError
  | FileNotFoundError.

Inductive result (A : Type) : Type :=
  | Ok (a : A)
  | Raise (e : exn).

Arguments Ok {A} a.
Arguments Raise {A} e.

Definition rbind {A B : Type} (r : result A) (k : A -> result B) : result B :=
  match r with
  | Ok a => k a
  | Raise e => Raise e
  end.

Declare Scope result_scope.
Delimit Scope result_scope with result.
Notation "x <- r ;; k" := (rbind r (fun x => k))
  (at level 100, r at next level, right associativity) : result_scope.

Abbreviation bytes := (list byte).

(** ** The Python built-ins the script relies on *)

Module Py.

(** [str.isspace] on one character: the Unicode white-space code points
    below 256. *)
Definition isspace (c : ascii) : bool :=
  let n := N_of_ascii c in
  ((9 <=? n) && (n <=? 13) || (28 <=? n) && (n <=? 31)
   || (n =? 32) || (n =? 133) || (n =? 160))%N.

(** The white space [int()] skips around a literal: the ASCII white space,
    and the non-ASCII white space that is first mapped to a blank. *)
Definition int_space (c : ascii) : bool :=
  let n := N_of_ascii c in
  ((9 <=? n) && (n <=? 13) || (n =? 32) || (n =? 133) || (n =? 160))%N.

(** Stripping the characters [sp] holds of, from the left and from the
    right. *)
Fixpoint lstrip_by (sp : ascii -> bool) (s : string) : string :=
  match s with
  | EmptyString => EmptyString
  | String c s' => if sp c then lstrip_by sp s' else s
  end.

Fixpoint rstrip_by (sp : ascii -> bool) (s : string) : string :=
  match s with
  | EmptyString => EmptyString
  | String c s' =>
      match rstrip_by sp s' with
      | EmptyString => if sp c then EmptyString else String c EmptyString
      | r => String c r
      end
  end.

Definition strip_by (sp : ascii -> bool) (s : string) : string :=
  rstrip_by sp (lstrip_by sp s).

(** [s.strip()] *)
Definition strip : string -> string := strip_by isspace.

Definition cons_head (c : ascii) (l : list string) : list string :=
  match l with
  | t :: ts => String c t :: ts
  | [] => [String c EmptyString]
  end.

(** [s.split()]: the maximal runs of non-white-space characters, in order. *)
Fixpoint split (s : string) : list string :=
  match s with
  | EmptyString => []
  | String c s' =>
      if isspace c then split s'
      else match s' with
           | EmptyString => [String c EmptyString]
           | String c' _ =>
               if isspace c' then String c EmptyString :: split s'
               else cons_head c (split s')
           end
  end.

(** The value of a base-16 digit: [0-9], [a-f] or [A-F] by code point. *)
Definition digit_value (c : ascii) : option Z :=
  let n := Z.of_N (N_of_ascii c) in
  if (48 <=? n) && (n <=? 57) then Some (n - 48)
  else if (97 <=? n) && (n <=? 102) then Some (n - 87)
  else if (65 <=? n) && (n <=? 70) then Some (n - 55)
  else None.

(** The digits of a literal: base-16 digits, with single underscores allowed
    between two digits. *)
Fixpoint scan_digits (s : string) (prev_underscore : bool) (acc : Z) : option Z :=
  match s with
  | EmptyString => if prev_underscore then None else Some acc
  | String c s' =>
      if Ascii.eqb c "_" then
        if prev_underscore then None else scan_digits s' true acc
      else
        match digit_value c with
        | Some d => scan_digits s' false (16 * acc + d)
        | None => None
        end
  end.

Definition skip_sign (s : string) : bool * string :=
  match s with
  | String "+" r => (false, r)
  | String "-" r => (true, r)
  | _ => (false, s)
  end.

Definition skip_prefix (s : string) : string :=
  match s with
  | String "0" (String x r) =>
      if Ascii.eqb x "x" || Ascii.eqb x "X" then
        match r with
        | String "_" r' => r'
        | _ => r
        end
      else s
  | _ => s
  end.

(** [int(s, 16)]: surrounding white space, an optional sign, an optional
    [0x] or [0X] prefix (after which one underscore may stand), then the
    digits. Anything else is a [ValueError]. *)
Definition int16 (s : string) : result Z :=
  let '(neg, s1) := skip_sign (strip_by int_space s) in
  let s2 := skip_prefix s1 in
  match s2 with
  | EmptyString => Raise ValueError
  | String "_" _ => Raise ValueError
  | _ =>
      match scan_digits s2 false 0 with
      | Some v => Ok (if neg then - v else v)
      | None => Raise ValueError
      end
  end.

Definition byte_of_Z (v : Z) : byte :=
  match Byte.of_N (Z.to_N v) with
  | Some b => b
  | None => x00
  end.

Definition Z_of_byte (b : byte) : Z := Z.of_N (Byte.to_N b).

Definition in_byte_range (v : Z) : bool := (0 <=? v) && (v <? 256).

(** [bytes(l)] for a list of integers: every element must be in
    [range(0, 256)]. *)
Definition bytes_of_ints (l : list Z) : result bytes :=
  if forallb in_byte_range l then Ok (map byte_of_Z l) else Raise ValueError.

Fixpoint le_bytes (len : nat) (n : Z) : bytes :=
  match len with
  | O => []
  | S k => byte_of_Z (n mod 256) :: le_bytes k (n / 256)
  end.

(** [n.to_bytes(len, byteorder="little", signed=False)] *)
Definition to_bytes (n : Z) (len : nat) : result bytes :=
  if n <? 0 then Raise OverflowError
  else if 256 ^ Z.of_nat len <=? n then Raise OverflowError
  else Ok (le_bytes len n).

Definition hex_char (d : N) : ascii :=
  match d with
  | 0 => "0" | 1 => "1" | 2 => "2" | 3 => "3" | 4 => "4" | 5 => "5"
  | 6 => "6" | 7 => "7" | 8 => "8" | 9 => "9" | 10 => "A" | 11 => "B"
  | 12 => "C" | 13 => "D" | 14 => "E" | _ => "F"
  end%N%char.

(** [f"{byte:02X}"] for an element of a [bytes] object. *)
Definition format_02X (b : byte) : string :=
  let n := Byte.to_N b in
  String (hex_char (n / 16)) (String (hex_char (n mod 16)) EmptyString).

(** [" ".join(f"{byte:02X}" for byte in bs)] *)
Definition hex_text (bs : bytes) : string :=
  String.concat " " (map format_02X bs).

(** [s * n] on strings *)
Fixpoint str_repeat (s : string) (n : nat) : string :=
  match n with
  | O => EmptyString
  | S k => s +:+ str_repeat s k
  end.

Fixpoint starts_with (sub data : bytes) : bool :=
  match sub, data with
  | [], _ => true
  | _ :: _, [] => false
  | x :: sub', y :: data' => Byte.eqb x y && starts_with sub' data'
  end.

Fixpoint find_index (sub data : bytes) : option nat :=
  if starts_with sub data then Some O
  else match data with
       | [] => None
       | _ :: data' => S <$> find_index sub data'
       end.

(** [data.find(sub, 0)]: the lowest offset at which [sub] occurs, or [-1]. *)
Definition find (data sub : bytes) : Z :=
  match find_index sub data with
  | Some i => Z.of_nat i
  | None => -1
  end.

(** Rounding of an integer to a float: 53 significant bits, ties to even. *)
Definition round53 (a : Z) : Z :=
  let n := Z.abs a in
  let sh := Z.log2 n + 1 - 53 in
  if sh <=? 0 then a
  else
    let q := Z.shiftr n sh in
    let r := n - Z.shiftl q sh in
    let half := Z.shiftl 1 (sh - 1) in
    let q' := if (half <? r) || ((r =? half) && Z.odd q) then q + 1 else q in
    Z.sgn a * Z.shiftl q' sh.

(** [int(a / 2)]: the true division yields the float nearest to the exact
    quotient, or fails when that is beyond the float range; [int] then
    truncates toward zero. *)
Definition int_truediv2 (a : Z) : result Z :=
  let r := round53 a in
  if 2 ^ 1025 <=? Z.abs r then Raise OverflowError
  else Ok (r ÷ 2).

End Py.

(** ** The world the script runs in *)

(** One constructor per [print] call of the script. *)
Inductive event : Type :=
  | YamlWidth (width : Z)
  | YamlHeight (height : Z)
  | PatchTxtFound
  | WillSearchFor (search_pattern : string)
  | PatchTxtNotFound
  | WillSearchDefault (search_pattern : string)
  | Editing (game_path : string)
  | CannotFind (search_pattern : string)
  | DeleteAndReinstall
  | Found (search_pattern : string) (offset : Z)
  | ReplacedWith (replace_pattern : string) (offset : Z)
  | ErrorFileNotFound (game_path : string).

(** The binary files by path, the text of [patch.txt] when it exists, and
    what was printed so far. The game libraries and [patch.txt] are distinct
    files: the script only ever opens the six fixed library paths in binary
    mode and ["patch.txt"] in text mode. *)
Record world : Type := World {
  files : gmap string bytes;
  patch_txt : option string;
  stdout : list event
}.

Definition M (A : Type) : Type := world -> result A * world.

Definition ret {A : Type} (a : A) : M A := fun w => (Ok a, w).

Definition bind {A B : Type} (m : M A) (k : A -> M B) : M B :=
  fun w =>
    match m w with
    | (Ok a, w') => k a w'
    | (Raise e, w') => (Raise e, w')
    end.

Definition lift {A : Type} (r : result A) : M A := fun w => (r, w).

(** [try: body / except ...: handler]; [handlers e] is the handler of the
    first clause that matches [e], if any. *)
Definition try_except {A : Type} (body : M A) (handlers : exn -> option (M A)) : M A :=
  fun w =>
    match body w with
    | (Ok a, w') => (Ok a, w')
    | (Raise e, w') =>
        match handlers e with
        | Some h => h w'
        | None => (Raise e, w')
        end
    end.

Declare Scope monad_scope.
Delimit Scope monad_scope with monad.
Notation "x <- m ;; k" := (bind m (fun x => k))
  (at level 100, m at next level, right associativity) : monad_scope.
Notation "m ;; k" := (bind m (fun _ => k))
  (at level 100, right associativity) : monad_scope.

Definition print (e : event) : M unit :=
  fun w => (Ok tt, World (files w) (patch_txt w) (stdout w ++ [e])).

(** [open(path, 'rb+')] followed by [file.read()] *)
Definition read_binary (path : string) : M bytes :=
  fun w =>
    match files w !! path with
    | Some data => (Ok data, w)
    | None => (Raise FileNotFoundError, w)
    end.

(** The content of a file of content [data] after [file.seek(offset)] and
    [file.write(rp)]. *)
Definition overwrite (data : bytes) (offset : nat) (rp : bytes) : bytes :=
  take offset data ++ rp ++ drop (offset + length rp) data.

Definition store_binary (path : string) (content : bytes) : M unit :=
  fun w => (Ok tt, World (<[path := content]> (files w)) (patch_txt w) (stdout w)).

(** [open("patch.txt", 'r')] followed by [file.readlines()] *)
Fixpoint readlines (s : string) : list string :=
  match s with
  | EmptyString => []
  | String c s' =>
      if Ascii.eqb c "010" then String "010" EmptyString :: readlines s'
      else if Ascii.eqb c "013" then
        match s' with
        | String "010" s'' => String "010" EmptyString :: readlines s''
        | _ => String "010" EmptyString :: readlines s'
        end
      else Py.cons_head c (readlines s')
  end.

Definition read_patch_txt : M (list string) :=
  fun w =>
    match patch_txt w with
    | Some content => (Ok (readlines content), w)
    | None => (Raise FileNotFoundError, w)
    end.

(** [open("patch.txt", "w")] followed by [file.write(text)] *)
Definition write_patch_txt (text : string) : M unit :=
  fun w => (Ok tt, World (files w) (Some text) (stdout w)).

Local Open Scope monad_scope.

(** ** The script *)

Record monitor : Type := Monitor {
  is_primary : bool;
  monitor_width : Z;
  monitor_height : Z
}.

Definition get_desktop_resolution (monitors : list monitor) : result (Z * Z) :=
  match List.find is_primary monitors with
  | Some m => Ok (monitor_width m, monitor_height m)
  | None =>
      match monitors with
      | primary_monitor :: _ =>
          Ok (monitor_width primary_monitor, monitor_height primary_monitor)
      | [] => Raise IndexError
      end
  end.

Definition is_wildcard (token : string) : bool :=
  String.eqb token "?" || String.eqb token "??".

(** The loop of [parse_signature] over [signature.split()]. *)
Fixpoint parse_tokens (tokens : list string) : result (list Z) :=
  match tokens with
  | [] => Ok []
  | token :: rest =>
      (v <- (if is_wildcard token then Ok 0 else Py.int16 token) ;;
       byte_array <- parse_tokens rest ;;
       Ok (v :: byte_array))%result
  end.

Definition parse_signature (signature : string) : result bytes :=
  (byte_array <- parse_tokens (Py.split signature) ;;
   Py.bytes_of_ints byte_array)%result.

Definition edit_dll (game_path search_pattern replace_pattern : string) : M unit :=
  print (Editing game_path) ;;
  let search_pattern := Py.strip search_pattern in
  sp1 <- lift (parse_signature search_pattern) ;;
  rp <- lift (parse_signature replace_pattern) ;;
  try_except
    (data <- read_binary game_path ;;
     let offset := Py.find data sp1 in
     if offset =? -1 then
       print (CannotFind search_pattern) ;;
       print DeleteAndReinstall
     else
       print (Found search_pattern offset) ;;
       store_binary game_path (overwrite data (Z.to_nat offset) rp) ;;
       print (ReplacedWith replace_pattern offset) ;;
       write_patch_txt replace_pattern)
    (fun e =>
       match e with
       | FileNotFoundError => Some (print (ErrorFileNotFound game_path))
       | _ => None
       end).

Definition default_search_pattern : string :=
  "20 03 00 00 58 02 00 00 00 04 00 00 00 03 00 00 00 05 00 00 D0 02 00 00 00 05 00 00 20 03 00 00 00 05 00 00 00 04 00 00 50 05 00 00 00 03 00 00 A0 05 00 00 84 03 00 00 40 06 00 00 84 03 00 00 40 06 00 00 B0 04 00 00 90 06 00 00 1A 04 00 00 80 07 00 00 38 04 00 00 80 07 00 00 B0 04 00 00 00 0A 00 00 A0 05 00 00 00 0A 00 00 40 06 00 00 00 0F 00 00 70 08 00 00".

(** The zero sentinel of [patch]. *)
Definition effective_resolution
    (width height desktop_width desktop_height : Z) : Z * Z :=
  if (width =? 0) || (height =? 0) then (desktop_width, desktop_height)
  else (width, height).

(** [offset = int((desktop_width - width) / 2)] *)
Definition centering_offset (desktop_width width : Z) : result Z :=
  Py.int_truediv2 (desktop_width - width).

(** The four values of [patch] once rendered as hex text. *)
Record fields : Type := Fields {
  special_text : string;
  width_text : string;
  height_text : string;
  offset_text : string
}.

(** The serialization of [patch]: the centering offset, then the four
    [to_bytes] calls in the order of the script, then the hex texts. *)
Definition serialize (width height desktop_width : Z) : result fields :=
  (offset <- centering_offset desktop_width width ;;
   special <- Py.to_bytes (Z.shiftl height 4) 4 ;;
   width <- Py.to_bytes width 4 ;;
   height <- Py.to_bytes height 4 ;;
   offset <- Py.to_bytes offset 4 ;;
   Ok (Fields (Py.hex_text special) (Py.hex_text width)
              (Py.hex_text height) (Py.hex_text offset)))%result.

(** [f"{width} {height} " * 15] *)
Definition build_replace_pattern (width height : string) : string :=
  Py.str_repeat (width +:+ " " +:+ height +:+ " ") 15.

(** The values [patch] computes from the configured and the desktop
    resolution before it touches any file. *)
Definition patch_fields
    (width height desktop_width desktop_height : Z) : result fields :=
  let '(width, height) :=
    effective_resolution width height desktop_width desktop_height in
  serialize width height desktop_width.

(** The search pattern [patch] settles on: the first line of [patch.txt]
    when the file exists, the default pattern otherwise. *)
Definition choose_search_pattern (search_pattern : string) : M string :=
  try_except
    (data <- read_patch_txt ;;
     print PatchTxtFound ;;
     match data with
     | line :: _ =>
         let search_pattern := Py.strip line in
         print (WillSearchFor search_pattern) ;;
         ret search_pattern
     | [] => lift (Raise IndexError)
     end)
    (fun e =>
       match e with
       | FileNotFoundError =>
           Some (print PatchTxtNotFound ;;
                 print (WillSearchDefault search_pattern) ;;
                 ret search_pattern)
       | _ => None
       end).

(** [yaml_data] is the configured [(width, height)], or [None] when
    [read_yaml] returned [None]; [monitors] is what [get_monitors()]
    returns. *)
Definition patch (yaml_data : option (Z * Z)) (monitors : list monitor) : M unit :=
  match yaml_data with
  | None => ret tt
  | Some (width, height) =>
      print (YamlWidth width) ;;
      print (YamlHeight height) ;;
      desktop <- lift (get_desktop_resolution monitors) ;;
      let '(desktop_width, desktop_height) := desktop in
      f <- lift (patch_fields width height desktop_width desktop_height) ;;
      let search_pattern := default_search_pattern in
      let replace_pattern := build_replace_pattern (width_text f) (height_text f) in
      search_pattern <- choose_search_pattern search_pattern ;;
      edit_dll "../hackGU_terminal.dll" search_pattern replace_pattern ;;
      edit_dll "../hackGU_title.dll" search_pattern replace_pattern ;;
      edit_dll "../hackGU_vol1.dll" search_pattern replace_pattern ;;
      edit_dll "../hackGU_vol2.dll" search_pattern replace_pattern ;;
      edit_dll "../hackGU_vol3.dll" search_pattern replace_pattern ;;
      edit_dll "../hackGU_vol4.dll" search_pattern replace_pattern
  end.

(** ** Specification-side notions *)

(** The integer a little-endian byte sequence denotes. *)
Fixpoint le_decode (bs : bytes) : Z :=
  match bs with
  | [] => 0
  | b :: bs' => Py.Z_of_byte b + 256 * le_decode bs'
  end.

(** [sub] occurs in [data] at offset [i]. *)
Definition occurs_at (sub data : bytes) (i : nat) : Prop :=
  exists pre post, data = pre ++ sub ++ post /\ length pre = i.

Fixpoint all_space (s : string) : bool :=
  match s with
  | EmptyString => true
  | String c s' => Py.isspace c && all_space s'
  end.

Fixpoint no_space (s : string) : bool :=
  match s with
  | EmptyString => true
  | String c s' => negb (Py.isspace c) && no_space s'
  end.

(** What may follow a token: the end of the string or a white-space
    character. *)
Definition ends_token (rest : string) : Prop :=
  match rest with
  | EmptyString => True
  | String c _ => Py.isspace c = true
  end.

(** A token made of exactly two base-16 digits. *)
Definition is_hex_byte (token : string) : bool :=
  match token with
  | String c1 (String c2 EmptyString) =>
      match Py.digit_value c1, Py.digit_value c2 with
      | Some _, Some _ => true
      | _, _ => false
      end
  | _ => false
  end.

Definition valid_token (token : string) : bool :=
  is_hex_byte token || is_wildcard token.

(** The byte a valid token stands for: its numeric value, and zero for a
    wildcard. *)
Definition token_value (token : string) : Z :=
  match token with
  | String c1 (String c2 EmptyString) =>
      match Py.digit_value c1, Py.digit_value c2 with
      | Some d1, Some d2 => 16 * d1 + d2
      | _, _ => 0
      end
  | _ => 0
  end.

(** A signature laid out as tokens, each followed by a run of white space. *)
Fixpoint spaced (items : list (string * string)) : string :=
  match items with
  | [] => EmptyString
  | (token, ws) :: rest => token +:+ ws +:+ spaced rest
  end.

(** Every token is valid and every separator is a non-empty run of white
    space; after the last token the run may be empty. *)
Fixpoint well_spaced (items : list (string * string)) : bool :=
  match items with
  | [] => true
  | (token, ws) :: rest =>
      valid_token token && all_space ws
      && match rest with
         | [] => true
         | _ :: _ => negb (String.eqb ws EmptyString) && well_spaced rest
         end
  end.

(** A token [parse_signature] accepts: a wildcard, or a literal that
    [int(token, 16)] converts to a value in [range(0, 256)]. *)
Definition accepted_token (token : string) : bool :=
  is_wildcard token
  || match Py.int16 token with
     | Ok v => Py.in_byte_range v
     | Raise _ => false
     end.

(** The line [patch] writes for a byte sequence: each byte as two hex
    digits followed by one blank. *)
Definition hex_line (bs : bytes) : string :=
  spaced (map (fun b => (Py.format_02X b, " ")) bs).

(** Upper-case hex text: the digits [0-9], the letters [A-F] and blanks. *)
Definition upper_hex_char (c : ascii) : bool :=
  match c with
  | "0" | "1" | "2" | "3" | "4" | "5" | "6" | "7" | "8" | "9"
  | "A" | "B" | "C" | "D" | "E" | "F" | " " => true
  | _ => false
  end%char.

Fixpoint upper_hex_text (s : string) : bool :=
  match s with
  | EmptyString => true
  | String c s' => upper_hex_char c && upper_hex_text s'
  end.

(** Three small worlds the theorems are run on: one game library each, the
    first two before any run, the third after a run at 1920 x 1080. *)
Definition title_world : world :=
  World {[ "../hackGU_title.dll" := [x00; xde; xad; x01; xde; xad] ]} None [].

Definition vol1_world : world :=
  World {[ "../hackGU_vol1.dll" := [x00; xde; x01] ]} None [].

Definition vol2_world : world :=
  World {[ "../hackGU_vol2.dll"
           := [x01; x80; x07; x00; x00; x38; x04; x00; x00; x02] ]}
        (Some "80 07 00 00 38 04 00 00 ") [].

(** An installation with one game library that holds the resolution table
    between two header bytes and a trailing byte, on a 1920 x 1080 desktop. *)
Definition resolution_table : bytes :=
  match parse_signature default_search_pattern with
  | Ok bs => bs
  | Raise _ => []
  end.

Definition fresh_install : world :=
  World {[ "../hackGU_title.dll" := [x4d; x5a] ++ resolution_table ++ [x00] ]}
        None [].

Definition desktop_1080p : list monitor :=
  [Monitor false 1280 1024; Monitor true 1920 1080].

(** Two runs of the script at 1280 x 720, the second on what the first
    left, and the table they are expected to write. *)
Definition first_run : result unit * world :=
  patch (Some (1280, 720)) desktop_1080p fresh_install.

Definition second_run : result unit * world :=
  patch (Some (1280, 720)) desktop_1080p (snd first_run).

Definition new_table : bytes :=
  concat (replicate 15 [x00; x05; x00; x00; xd0; x02; x00; x00]).

(** A wildcard written as the literal byte it stands for. *)
Definition unwild (token : string) : string :=
  if is_wildcard token then "00" else token.

(** The hex text of a byte sequence as tokens and separators: one blank
    between two bytes, nothing after the last. *)
Fixpoint hex_items (bs : bytes) : list (string * string) :=
  match bs with
  | [] => []
  | b :: bs' =>
      match bs' with
      | [] => [(Py.format_02X b, EmptyString)]
      | _ :: _ => (Py.format_02X b, " ") :: hex_items bs'
      end
  end.

Definition is_linebreak (c : ascii) : bool :=
  Ascii.eqb c "010" || Ascii.eqb c "013".

Fixpoint no_linebreak (s : string) : bool :=
  match s with
  | EmptyString => true
  | String c s' => negb (is_linebreak c) && no_linebreak s'
  end.

(** What may follow the first line of a text: nothing, or a line break. *)
Definition ends_line (rest : string) : Prop :=
  match rest with
  | EmptyString => True
  | String c _ => is_linebreak c = true
  end.

(** The six libraries [patch] edits, in the order of its calls, and the
    calls as one sequence. *)
Definition game_paths : list string :=
  ["../hackGU_terminal.dll"; "../hackGU_title.dll"; "../hackGU_vol1.dll";
   "../hackGU_vol2.dll"; "../hackGU_vol3.dll"; "../hackGU_vol4.dll"].

Fixpoint edit_all (paths : list string)
    (search_pattern replace_pattern : string) : M unit :=
  match paths with
  | [] => ret tt
  | game_path :: rest =>
      edit_dll game_path search_pattern replace_pattern ;;
      edit_all rest search_pattern replace_pattern
  end.

(** A run of [edit_dll] for the bytes [sp] leaves the file at [path] alone:
    the file is missing or does not hold [sp]. *)
Definition untouched (sp : bytes) (fs : gmap string bytes) (path : string) : Prop :=
  match fs !! path with
  | None => True
  | Some data => Py.find_index sp data = None
  end.

(** The world after the two [print] calls that open [patch]. *)
Definition announced (width height : Z) (w : world) : world :=
  World (files w) (patch_txt w) (stdout w ++ [YamlWidth width; YamlHeight height]).

(** Two desktops and a world with a two-line [patch.txt]. *)
Definition no_primary : list monitor :=
  [Monitor false 1280 1024; Monitor false 1920 1080].

Definition recorded_world : world :=
  World (files title_world)
        (Some (String "009" "DE AD " +:+ String "013" (String "010" "BE EF")))
        [].

(** ** Bytes and their encodings *)

Lemma Z_of_byte_range (b : byte) : 0 <= Py.Z_of_byte b < 256.
Proof.
  unfold Py.Z_of_byte. pose proof (Byte.to_N_bounded b). lia.
Qed.

Lemma byte_of_Z_of_byte (b : byte) : Py.byte_of_Z (Py.Z_of_byte b) = b.
Proof.
  unfold Py.byte_of_Z, Py.Z_of_byte. rewrite N2Z.id.
  now rewrite Byte.of_to_N.
Qed.

Lemma Z_of_byte_of_Z (v : Z) : 0 <= v < 256 -> Py.Z_of_byte (Py.byte_of_Z v) = v.
Proof.
  intros Hv. unfold Py.byte_of_Z, Py.Z_of_byte.
  destruct (Byte.of_N (Z.to_N v)) as [b|] eqn:E.
  - apply Byte.to_of_N in E. lia.
  - apply Byte.of_N_None_iff in E. lia.
Qed.

Lemma length_le_bytes (len : nat) (n : Z) : length (Py.le_bytes len n) = len.
Proof.
  revert n. induction len as [|k IH]; intros n; simpl; [reflexivity|].
  now rewrite IH.
Qed.

Lemma le_decode_le_bytes (len : nat) (n : Z) :
  0 <= n < 256 ^ Z.of_nat len -> le_decode (Py.le_bytes len n) = n.
Proof.
  revert n. induction len as [|k IH]; intros n Hn.
  - simpl in *. lia.
  - cbn [Py.le_bytes le_decode].
    rewrite Z_of_byte_of_Z by (apply Z.mod_pos_bound; lia).
    rewrite IH.
    + pose proof (Z.div_mod n 256). lia.
    + rewrite Nat2Z.inj_succ, Z.pow_succ_r in Hn by lia.
      split; [apply Z.div_pos; lia | apply Z.div_lt_upper_bound; lia].
Qed.

Lemma to_bytes_ok (n : Z) (len : nat) :
  0 <= n < 256 ^ Z.of_nat len -> Py.to_bytes n len = Ok (Py.le_bytes len n).
Proof.
  intros [H0 H1]. unfold Py.to_bytes.
  destruct (n <? 0) eqn:E0; [apply Z.ltb_lt in E0; lia|].
  destruct (256 ^ Z.of_nat len <=? n) eqn:E1; [apply Z.leb_le in E1; lia|].
  reflexivity.
Qed.

Lemma to_bytes_negative (n : Z) (len : nat) :
  n < 0 -> Py.to_bytes n len = Raise OverflowError.
Proof.
  intros H. unfold Py.to_bytes.
  destruct (n <? 0) eqn:E0; [reflexivity | apply Z.ltb_ge in E0; lia].
Qed.

Lemma bytes_of_ints_of_bytes (bs : bytes) :
  Py.bytes_of_ints (map Py.Z_of_byte bs) = Ok bs.
Proof.
  unfold Py.bytes_of_ints.
  assert (H : forallb Py.in_byte_range (map Py.Z_of_byte bs) = true).
  { induction bs as [|b bs IH]; simpl; [reflexivity|].
    rewrite IH, andb_true_r. unfold Py.in_byte_range.
    pose proof (Z_of_byte_range b).
    apply andb_true_iff. split; [apply Z.leb_le | apply Z.ltb_lt]; lia. }
  rewrite H. f_equal.
  induction bs as [|b bs IH]; simpl; [reflexivity|].
  rewrite byte_of_Z_of_byte. f_equal. apply IH.
  simpl in H. apply andb_true_iff in H. tauto.
Qed.

(** ** The true division by two *)

Lemma int_truediv2_exact (a : Z) :
  Z.abs a < 2 ^ 53 -> Py.int_truediv2 a = Ok (a ÷ 2).
Proof.
  intros Ha. unfold Py.int_truediv2.
  assert (Hr : Py.round53 a = a).
  { unfold Py.round53.
    destruct (Z.eq_dec (Z.abs a) 0) as [E|E].
    - rewrite E. reflexivity.
    - assert (Z.log2 (Z.abs a) < 53) by (apply Z.log2_lt_pow2; lia).
      destruct (Z.log2 (Z.abs a) + 1 - 53 <=? 0) eqn:L; [reflexivity|].
      apply Z.leb_gt in L. lia. }
  rewrite Hr.
  assert (2 ^ 53 < 2 ^ 1025) by (apply Z.pow_lt_mono_r; lia).
  destruct (2 ^ 1025 <=? Z.abs a) eqn:L; [apply Z.leb_le in L; lia|].
  reflexivity.
Qed.

(** ** White-space splitting and stripping *)

Lemma append_cons (c : ascii) (s t : string) :
  String c s +:+ t = String c (s +:+ t).
Proof. reflexivity. Qed.

Lemma append_empty_r (s : string) : s +:+ EmptyString = s.
Proof.
  induction s as [|c s IH]; [reflexivity|]. now rewrite append_cons, IH.
Qed.

Lemma split_leading_space (ws s : string) :
  all_space ws = true -> Py.split (ws +:+ s) = Py.split s.
Proof.
  induction ws as [|c ws IH]; simpl; [reflexivity|].
  intros [Hc Hw]%andb_true_iff. rewrite Hc. auto.
Qed.

Lemma split_cons_cons (c c2 : ascii) (s : string) :
  Py.isspace c = false -> Py.isspace c2 = false ->
  Py.split (String c (String c2 s)) = Py.cons_head c (Py.split (String c2 s)).
Proof.
  intros Hc Hc2. simpl. rewrite Hc, Hc2. reflexivity.
Qed.

Lemma split_token (t rest : string) :
  t <> EmptyString -> no_space t = true -> ends_token rest ->
  Py.split (t +:+ rest) = t :: Py.split rest.
Proof.
  induction t as [|c t IH]; [congruence|].
  intros _ [Hc Ht]%andb_true_iff Hr. apply negb_true_iff in Hc.
  destruct t as [|c2 t'].
  - simpl. rewrite Hc. destruct rest as [|c' r]; [reflexivity|].
    simpl in Hr. simpl. rewrite Hr. reflexivity.
  - assert (Hc2 : Py.isspace c2 = false).
    { simpl in Ht. apply andb_true_iff in Ht. now apply negb_true_iff. }
    change (String c (String c2 t') +:+ rest)
      with (String c (String c2 (t' +:+ rest))).
    rewrite split_cons_cons by assumption.
    change (String c2 (t' +:+ rest)) with (String c2 t' +:+ rest).
    rewrite IH by (assumption || congruence). reflexivity.
Qed.

Lemma ends_token_space (ws s : string) :
  all_space ws = true -> ws <> EmptyString \/ s = EmptyString ->
  ends_token (ws +:+ s).
Proof.
  destruct ws as [|c ws]; simpl.
  - intros _ [H| ->]; [congruence | exact I].
  - intros [Hc _]%andb_true_iff _. exact Hc.
Qed.

Lemma lstrip_split (s : string) :
  Py.split (Py.lstrip_by Py.isspace s) = Py.split s.
Proof.
  induction s as [|c s IH]; [reflexivity|].
  cbn [Py.lstrip_by]. destruct (Py.isspace c) eqn:Hc; [|reflexivity].
  rewrite IH. simpl. now rewrite Hc.
Qed.

Lemma rstrip_empty_all_space (s : string) :
  Py.rstrip_by Py.isspace s = EmptyString -> all_space s = true.
Proof.
  induction s as [|c s IH]; [reflexivity|].
  cbn [Py.rstrip_by all_space].
  destruct (Py.rstrip_by Py.isspace s) eqn:E; [|discriminate].
  destruct (Py.isspace c); [|discriminate]. intros _. now rewrite IH.
Qed.

Lemma split_all_space (s : string) : all_space s = true -> Py.split s = [].
Proof.
  intros H. rewrite <- (append_empty_r s) at 1.
  exact (split_leading_space s EmptyString H).
Qed.

Lemma rstrip_head (c : ascii) (s : string) (c' : ascii) (r : string) :
  Py.rstrip_by Py.isspace (String c s) = String c' r -> c' = c.
Proof.
  cbn [Py.rstrip_by].
  destruct (Py.rstrip_by Py.isspace s); [destruct (Py.isspace c)|]; congruence.
Qed.

Lemma rstrip_split (s : string) :
  Py.split (Py.rstrip_by Py.isspace s) = Py.split s.
Proof.
  induction s as [|c s IH]; [reflexivity|].
  cbn [Py.rstrip_by].
  destruct (Py.rstrip_by Py.isspace s) as [|c2 r] eqn:E.
  - pose proof (rstrip_empty_all_space s E) as Hs.
    pose proof (split_all_space s Hs) as Hsp.
    destruct (Py.isspace c) eqn:Hc.
    + simpl. rewrite Hc. now rewrite Hsp.
    + change (String c s) with (String c EmptyString +:+ s).
      rewrite split_token, Hsp.
      * simpl. now rewrite Hc.
      * congruence.
      * simpl. now rewrite Hc.
      * destruct s as [|c' s']; [exact I|].
        simpl in Hs. now apply andb_true_iff in Hs.
  - destruct s as [|c' s']; [discriminate|].
    pose proof (rstrip_head _ _ _ _ E) as ->.
    destruct (Py.isspace c) eqn:Hc.
    + simpl. rewrite Hc. exact IH.
    + destruct (Py.isspace c') eqn:Hc'.
      * simpl. rewrite Hc, Hc'. f_equal.
        simpl in IH. rewrite Hc' in IH. exact IH.
      * rewrite !split_cons_cons by assumption. now rewrite IH.
Qed.

Lemma strip_split (s : string) : Py.split (Py.strip s) = Py.split s.
Proof.
  unfold Py.strip, Py.strip_by. now rewrite rstrip_split, lstrip_split.
Qed.

(** ** Tokens *)

Lemma hex_byte_token (c1 c2 : ascii) (d1 d2 : Z) :
  Py.digit_value c1 = Some d1 -> Py.digit_value c2 = Some d2 ->
  let token := String c1 (String c2 EmptyString) in
  Py.int16 token = Ok (16 * d1 + d2)
  /\ is_wildcard token = false
  /\ no_space token = true
  /\ 0 <= 16 * d1 + d2 < 256.
Proof.
  intros H1 H2.
  destruct c1 as [[] [] [] [] [] [] [] []]; vm_compute in H1;
    try discriminate H1; injection H1 as <-;
    destruct c2 as [[] [] [] [] [] [] [] []]; vm_compute in H2;
    try discriminate H2; injection H2 as <-;
    (split; [vm_compute; reflexivity|]);
    (split; [vm_compute; reflexivity|]);
    (split; [vm_compute; reflexivity|]); lia.
Qed.

Lemma is_hex_byte_inv (token : string) :
  is_hex_byte token = true ->
  exists c1 c2 d1 d2,
    token = String c1 (String c2 EmptyString)
    /\ Py.digit_value c1 = Some d1 /\ Py.digit_value c2 = Some d2.
Proof.
  destruct token as [|c1 [|c2 [|c3 r]]]; simpl; try discriminate.
  destruct (Py.digit_value c1) as [d1|] eqn:E1; [|discriminate].
  destruct (Py.digit_value c2) as [d2|] eqn:E2; [|discriminate].
  intros _. now exists c1, c2, d1, d2.
Qed.

Lemma is_wildcard_inv (token : string) :
  is_wildcard token = true -> token = "?" \/ token = "??".
Proof.
  unfold is_wildcard. intros [H|H]%orb_true_iff; apply String.eqb_eq in H; auto.
Qed.

Lemma valid_token_shape (token : string) :
  valid_token token = true -> token <> EmptyString /\ no_space token = true.
Proof.
  unfold valid_token. intros [H|H]%orb_true_iff.
  - destruct (is_hex_byte_inv _ H) as (c1 & c2 & d1 & d2 & -> & H1 & H2).
    split; [congruence|]. now destruct (hex_byte_token _ _ _ _ H1 H2) as (_ & _ & ? & _).
  - destruct (is_wildcard_inv _ H) as [-> | ->]; split; (congruence || reflexivity).
Qed.

(** What the loop does with one valid token. *)
Lemma valid_token_parses (token : string) :
  valid_token token = true ->
  (if is_wildcard token then Ok 0 else Py.int16 token) = Ok (token_value token)
  /\ 0 <= token_value token < 256.
Proof.
  unfold valid_token. destruct (is_wildcard token) eqn:W.
  - intros _. destruct (is_wildcard_inv _ W) as [-> | ->]; split; (reflexivity || (vm_compute; split; congruence)).
  - rewrite orb_false_r. intros H.
    destruct (is_hex_byte_inv _ H) as (c1 & c2 & d1 & d2 & -> & H1 & H2).
    destruct (hex_byte_token _ _ _ _ H1 H2) as (Hi & _ & _ & Hr).
    cbn [token_value]. rewrite H1, H2. split; [exact Hi | exact Hr].
Qed.

Lemma valid_token_accepted (token : string) :
  valid_token token = true -> accepted_token token = true.
Proof.
  intros H. destruct (valid_token_parses _ H) as [Hp Hr].
  unfold accepted_token. destruct (is_wildcard token); [reflexivity|].
  rewrite Hp. unfold Py.in_byte_range.
  apply andb_true_iff. split; [apply Z.leb_le | apply Z.ltb_lt]; lia.
Qed.

Lemma int16_raises (token : string) (e : exn) :
  Py.int16 token = Raise e -> e = ValueError.
Proof.
  unfold Py.int16.
  destruct (Py.skip_sign (Py.strip_by Py.int_space token)) as [neg s1].
  destruct (Py.skip_prefix s1) as [|c s2]; [congruence|].
  destruct (Py.scan_digits (String c s2) false 0);
    destruct c as [[] [] [] [] [] [] [] []]; congruence.
Qed.

(** ** The signature parser *)

Lemma parse_tokens_valid (tokens : list string) :
  forallb valid_token tokens = true ->
  parse_tokens tokens = Ok (map token_value tokens)
  /\ forallb Py.in_byte_range (map token_value tokens) = true.
Proof.
  induction tokens as [|t ts IH]; [split; reflexivity|].
  cbn [forallb]. intros [Ht Hts]%andb_true_iff.
  destruct (valid_token_parses _ Ht) as [Hp Hr].
  destruct (IH Hts) as [IH1 IH2].
  cbn [parse_tokens map forallb]. rewrite Hp. cbn [rbind]. rewrite IH1. cbn [rbind].
  split; [reflexivity|]. rewrite IH2, andb_true_r. unfold Py.in_byte_range.
  apply andb_true_iff. split; [apply Z.leb_le | apply Z.ltb_lt]; lia.
Qed.

Lemma parse_tokens_ok (tokens : list string) (vs : list Z) :
  parse_tokens tokens = Ok vs ->
  forallb Py.in_byte_range vs = forallb accepted_token tokens.
Proof.
  revert vs. induction tokens as [|t ts IH]; intros vs.
  - cbn. intros [= <-]. reflexivity.
  - cbn [parse_tokens forallb]. unfold accepted_token at 1.
    destruct (is_wildcard t).
    + cbn [rbind]. destruct (parse_tokens ts) as [vs'|e]; [|discriminate].
      cbn [rbind]. intros [= <-]. cbn. now rewrite (IH vs').
    + destruct (Py.int16 t) as [v|e]; [|discriminate].
      cbn [rbind]. destruct (parse_tokens ts) as [vs'|e]; [|discriminate].
      cbn [rbind]. intros [= <-]. cbn [forallb orb]. now rewrite (IH vs').
Qed.

Lemma parse_tokens_raise (tokens : list string) (e : exn) :
  parse_tokens tokens = Raise e ->
  e = ValueError /\ forallb accepted_token tokens = false.
Proof.
  induction tokens as [|t ts IH]; [discriminate|].
  cbn [parse_tokens forallb]. unfold accepted_token at 1.
  destruct (is_wildcard t).
  - cbn [rbind orb andb]. destruct (parse_tokens ts) as [vs'|e']; [discriminate|].
    cbn [rbind]. intros [= <-]. now apply IH.
  - destruct (Py.int16 t) as [v|e'] eqn:E.
    + cbn [rbind orb]. destruct (parse_tokens ts) as [vs'|e'']; [discriminate|].
      cbn [rbind]. intros [= <-]. destruct (IH eq_refl) as [-> ->].
      now rewrite andb_false_r.
    + cbn [rbind]. intros [= <-]. split; [now apply int16_raises in E | reflexivity].
Qed.

Lemma parse_signature_result (s : string) :
  match parse_signature s with
  | Ok _ => forallb accepted_token (Py.split s) = true
  | Raise e => e = ValueError /\ forallb accepted_token (Py.split s) = false
  end.
Proof.
  unfold parse_signature.
  destruct (parse_tokens (Py.split s)) as [vs|e] eqn:E; cbn [rbind].
  - apply parse_tokens_ok in E. unfold Py.bytes_of_ints.
    destruct (forallb Py.in_byte_range vs); [congruence|]. now split.
  - now apply parse_tokens_raise in E.
Qed.

Lemma parse_signature_tokens (s : string) :
  forallb valid_token (Py.split s) = true ->
  parse_signature s
  = Ok (map (fun token => Py.byte_of_Z (token_value token)) (Py.split s)).
Proof.
  intros H. unfold parse_signature.
  destruct (parse_tokens_valid _ H) as [-> Hr]. cbn [rbind].
  unfold Py.bytes_of_ints. rewrite Hr. now rewrite map_map.
Qed.

Lemma split_spaced (items : list (string * string)) :
  well_spaced items = true ->
  Py.split (spaced items) = map fst items
  /\ forallb valid_token (map fst items) = true.
Proof.
  induction items as [|[t ws] rest IH]; [split; reflexivity|].
  cbn [well_spaced spaced map fst forallb].
  intros [[Ht Hws]%andb_true_iff Hrest]%andb_true_iff.
  destruct (valid_token_shape _ Ht) as [Hne Hns].
  assert (Hr : well_spaced rest = true
               /\ (ws <> EmptyString \/ spaced rest = EmptyString)).
  { destruct rest as [|it rest']; [split; [reflexivity | now right]|].
    apply andb_true_iff in Hrest as [Hn Hr]. split; [exact Hr|].
    left. intros ->. discriminate Hn. }
  destruct Hr as [Hr Hend]. destruct (IH Hr) as [IH1 IH2].
  rewrite split_token by (auto using ends_token_space).
  rewrite split_leading_space by assumption.
  rewrite IH1, Ht, IH2. split; reflexivity.
Qed.

Lemma parse_signature_spaced (ws0 : string) (items : list (string * string)) :
  all_space ws0 = true -> well_spaced items = true ->
  parse_signature (ws0 +:+ spaced items)
  = Ok (map (fun item => Py.byte_of_Z (token_value (fst item))) items).
Proof.
  intros H0 Hi. destruct (split_spaced _ Hi) as [Hs Hv].
  assert (E : Py.split (ws0 +:+ spaced items) = map fst items)
    by now rewrite split_leading_space.
  rewrite parse_signature_tokens by now rewrite E.
  rewrite E. now rewrite map_map.
Qed.

Lemma parse_signature_strip (s : string) :
  parse_signature (Py.strip s) = parse_signature s.
Proof.
  unfold parse_signature. now rewrite strip_split.
Qed.

(** ** Searching and overwriting *)

Lemma starts_with_iff (sub data : bytes) :
  Py.starts_with sub data = true <-> exists post, data = sub ++ post.
Proof.
  revert data. induction sub as [|x sub IH]; intros data.
  - simpl. split; [intros _; now exists data | reflexivity].
  - destruct data as [|y data]; simpl.
    + split; [discriminate | intros [post H]; discriminate H].
    + rewrite andb_true_iff, IH. split.
      * intros [Hxy [post ->]]. apply Byte.byte_dec_bl in Hxy as ->. now exists post.
      * intros [post [= -> ->]]. split; [now apply Byte.byte_dec_lb | now exists post].
Qed.

Lemma occurs_at_0 (sub data : bytes) :
  occurs_at sub data 0 <-> Py.starts_with sub data = true.
Proof.
  rewrite starts_with_iff. split.
  - intros (pre & post & -> & Hl). destruct pre; [|discriminate Hl]. now exists post.
  - intros [post ->]. now exists [], post.
Qed.

Lemma occurs_at_S (sub : bytes) (y : byte) (data : bytes) (i : nat) :
  occurs_at sub (y :: data) (S i) <-> occurs_at sub data i.
Proof.
  split.
  - intros (pre & post & E & Hl). destruct pre as [|z pre]; [discriminate Hl|].
    injection E as -> ->. injection Hl as Hl. now exists pre, post.
  - intros (pre & post & -> & Hl). exists (y :: pre), post. simpl. now rewrite Hl.
Qed.

Lemma occurs_at_nil (sub : bytes) (i : nat) :
  occurs_at sub [] i -> i = O.
Proof.
  intros (pre & post & E & Hl). destruct pre; [now symmetry | discriminate E].
Qed.

Lemma find_index_Some (sub data : bytes) (i : nat) :
  Py.find_index sub data = Some i ->
  occurs_at sub data i /\ forall j, (j < i)%nat -> ~ occurs_at sub data j.
Proof.
  revert i. induction data as [|y data IH]; intros i; cbn [Py.find_index].
  - destruct (Py.starts_with sub []) eqn:E; [|discriminate].
    intros [= <-]. split; [now apply occurs_at_0 | intros j Hj; lia].
  - destruct (Py.starts_with sub (y :: data)) eqn:E.
    + intros [= <-]. split; [now apply occurs_at_0 | intros j Hj; lia].
    + destruct (Py.find_index sub data) as [k|]; [|discriminate].
      cbn. intros [= <-]. destruct (IH k eq_refl) as [Hk Hlt].
      split; [now apply occurs_at_S|].
      intros [|j] Hj.
      * rewrite occurs_at_0. congruence.
      * rewrite occurs_at_S. apply Hlt. lia.
Qed.

Lemma find_index_None (sub data : bytes) :
  Py.find_index sub data = None -> forall j, ~ occurs_at sub data j.
Proof.
  induction data as [|y data IH]; cbn [Py.find_index].
  - destruct (Py.starts_with sub []) eqn:E; [discriminate|].
    intros _ j Hj. pose proof (occurs_at_nil _ _ Hj) as ->.
    apply occurs_at_0 in Hj. congruence.
  - destruct (Py.starts_with sub (y :: data)) eqn:E; [discriminate|].
    destruct (Py.find_index sub data) as [k|]; [discriminate|].
    intros _ [|j].
    + rewrite occurs_at_0. congruence.
    + rewrite occurs_at_S. now apply IH.
Qed.

Lemma find_index_first (sub data : bytes) (i : nat) :
  occurs_at sub data i -> (forall j, (j < i)%nat -> ~ occurs_at sub data j) ->
  Py.find_index sub data = Some i.
Proof.
  intros Hi Hfirst. destruct (Py.find_index sub data) as [k|] eqn:E.
  - destruct (find_index_Some _ _ _ E) as [Hk Hlt]. f_equal.
    destruct (Nat.lt_trichotomy k i) as [H|[H|H]]; [|exact H|].
    + now destruct (Hfirst k H).
    + now destruct (Hlt i H).
  - now destruct (find_index_None _ _ E i).
Qed.

Lemma overwrite_occurrence (pre sub post rp : bytes) :
  length rp = length sub ->
  overwrite (pre ++ sub ++ post) (length pre) rp = pre ++ rp ++ post.
Proof.
  intros Hl. unfold overwrite. rewrite take_app_length. f_equal. f_equal.
  rewrite drop_app_add, Hl. apply drop_app_length.
Qed.

(** ** The patch engine *)

(** What [edit_dll] does once both patterns have parsed and the file is
    there, by the result of the search. *)
Lemma edit_dll_run (game_path search_pattern replace_pattern : string)
    (w : world) (sp rp data : bytes) :
  parse_signature search_pattern = Ok sp ->
  parse_signature replace_pattern = Ok rp ->
  files w !! game_path = Some data ->
  edit_dll game_path search_pattern replace_pattern w =
  match Py.find_index sp data with
  | Some i =>
      (Ok tt,
       World (<[game_path := overwrite data i rp]> (files w))
             (Some replace_pattern)
             (stdout w ++ [Editing game_path;
                           Found (Py.strip search_pattern) (Z.of_nat i);
                           ReplacedWith replace_pattern (Z.of_nat i)]))
  | None =>
      (Ok tt,
       World (files w) (patch_txt w)
             (stdout w ++ [Editing game_path;
                           CannotFind (Py.strip search_pattern);
                           DeleteAndReinstall]))
  end.
Proof.
  intros Hsp Hrp Hf.
  unfold edit_dll, bind, lift, try_except, print, read_binary.
  cbn [files patch_txt stdout]. rewrite parse_signature_strip, Hsp, Hrp, Hf.
  unfold Py.find. destruct (Py.find_index sp data) as [i|].
  - destruct (Z.of_nat i =? -1) eqn:E; [apply Z.eqb_eq in E; lia|].
    unfold store_binary, write_patch_txt. cbn [files patch_txt stdout].
    rewrite Nat2Z.id, <- !app_assoc. reflexivity.
  - cbn [Z.eqb Pos.eqb files patch_txt stdout].
    rewrite <- !app_assoc. reflexivity.
Qed.

(** ** Hex text *)

Lemma format_02X_token (b : byte) :
  valid_token (Py.format_02X b) = true
  /\ token_value (Py.format_02X b) = Py.Z_of_byte b.
Proof. destruct b; split; reflexivity. Qed.

Lemma format_02X_upper (b : byte) : upper_hex_text (Py.format_02X b) = true.
Proof. destruct b; reflexivity. Qed.

Lemma upper_hex_text_app (s t : string) :
  upper_hex_text (s +:+ t) = upper_hex_text s && upper_hex_text t.
Proof.
  induction s as [|c s IH]; [reflexivity|].
  rewrite append_cons. cbn [upper_hex_text]. now rewrite IH, andb_assoc.
Qed.

Lemma hex_text_upper (bs : bytes) : upper_hex_text (Py.hex_text bs) = true.
Proof.
  unfold Py.hex_text. induction bs as [|b bs IH]; [reflexivity|].
  destruct bs as [|b' bs]; cbn [map String.concat].
  - apply format_02X_upper.
  - rewrite !upper_hex_text_app, format_02X_upper. exact IH.
Qed.

Lemma well_spaced_hex_line (bs : bytes) :
  well_spaced (map (fun b => (Py.format_02X b, " ")) bs) = true.
Proof.
  induction bs as [|b bs IH]; [reflexivity|].
  cbn [map well_spaced]. rewrite (proj1 (format_02X_token b)).
  change (all_space " ") with true. cbn [andb].
  destruct bs as [|b' bs]; [reflexivity|]. exact IH.
Qed.

(** Parsing the line written for a byte sequence gives the sequence back. *)
Lemma parse_signature_hex_line (bs : bytes) :
  parse_signature (hex_line bs) = Ok bs.
Proof.
  unfold hex_line.
  pose proof (parse_signature_spaced EmptyString _ eq_refl
                (well_spaced_hex_line bs)) as H.
  change (EmptyString +:+ ?x) with x in H. rewrite H. f_equal.
  clear H. rewrite map_map. cbn [fst].
  induction bs as [|b bs IH]; [reflexivity|]. cbn [map].
  rewrite (proj2 (format_02X_token b)), byte_of_Z_of_byte. now f_equal.
Qed.

Lemma build_replace_pattern_hex_line (a b c d e f g h : byte) :
  build_replace_pattern (Py.hex_text [a; b; c; d]) (Py.hex_text [e; f; g; h])
  = hex_line (concat (replicate 15 [a; b; c; d; e; f; g; h])).
Proof. reflexivity. Qed.

(** ** The serialization of [patch] *)

Lemma pow_256_4 : 256 ^ Z.of_nat 4 = 2 ^ 32.
Proof. reflexivity. Qed.

Lemma serialize_run (width height desktop_width : Z) :
  Z.abs (desktop_width - width) < 2 ^ 53 ->
  0 <= height < 2 ^ 28 ->
  0 <= width < 2 ^ 32 ->
  serialize width height desktop_width =
  match Py.to_bytes ((desktop_width - width) ÷ 2) 4 with
  | Ok offset =>
      Ok (Fields (Py.hex_text (Py.le_bytes 4 (Z.shiftl height 4)))
                 (Py.hex_text (Py.le_bytes 4 width))
                 (Py.hex_text (Py.le_bytes 4 height))
                 (Py.hex_text offset))
  | Raise e => Raise e
  end.
Proof.
  intros Hd Hh Hw. unfold serialize, centering_offset.
  rewrite int_truediv2_exact by assumption. cbn [rbind].
  rewrite (to_bytes_ok (Z.shiftl height 4) 4)
    by (rewrite pow_256_4, Z.shiftl_mul_pow2 by lia; lia).
  cbn [rbind].
  rewrite (to_bytes_ok width 4) by (rewrite pow_256_4; lia). cbn [rbind].
  rewrite (to_bytes_ok height 4) by (rewrite pow_256_4; lia). cbn [rbind].
  destruct (Py.to_bytes ((desktop_width - width) ÷ 2) 4); reflexivity.
Qed.

Lemma forallb_false_In {A : Type} (f : A -> bool) (l : list A) :
  forallb f l = false <-> exists x, In x l /\ f x = false.
Proof.
  induction l as [|a l IH]; cbn [forallb In].
  - split; [discriminate | intros (x & [] & _)].
  - rewrite andb_false_iff, IH. split.
    + intros [H|(x & Hx & Hf)]; [exists a; auto | exists x; auto].
    + intros (x & [->|Hx] & Hf); [auto | right; eauto].
Qed.

(** * Properties of the script *)

(** ** C1: the centering offset *)

(** C1, at the input the specification names: with a desktop width of 1920
    and a width of 2560 the script does not produce the wrapped-around
    encoding of [floor((1920 - 2560) / 2)]; the serialization of the offset
    raises [OverflowError] and no offset bytes exist. *)
Lemma offset_wraparound_refuted :
  serialize 2560 1440 1920 = Raise OverflowError
  /\ ~ (exists f, serialize 2560 1440 1920 = Ok f
                  /\ offset_text f
                     = Py.hex_text (Py.le_bytes 4 (((1920 - 2560) / 2) mod 2 ^ 32))).
Proof.
  assert (H : serialize 2560 1440 1920 = Raise OverflowError)
    by (vm_compute; reflexivity).
  split; [exact H|]. intros (f & Hf & _). congruence.
Qed.

(** C1, as amended: for a 32-bit width and desktop width and a height whose
    special value fits, (a) when the width does not exceed the desktop
    width, the offset bytes are the four-byte little-endian encoding of
    [floor((desktop_width - width) / 2)]; (b) when the width exceeds it by
    one, the quotient is truncated toward zero and the offset is zero;
    (c) when the width exceeds it by two or more, the offset is negative
    and its serialization raises [OverflowError]: nothing wraps around. *)
Theorem offset_bytes (width height desktop_width : Z) :
  0 <= width < 2 ^ 32 ->
  0 <= height < 2 ^ 28 ->
  0 <= desktop_width < 2 ^ 32 ->
  (width <= desktop_width ->
   exists f bs,
     serialize width height desktop_width = Ok f
     /\ offset_text f = Py.hex_text bs
     /\ length bs = 4%nat
     /\ le_decode bs = (desktop_width - width) / 2)
  /\ (width = desktop_width + 1 ->
      exists f,
        serialize width height desktop_width = Ok f
        /\ offset_text f = "00 00 00 00")
  /\ (desktop_width + 2 <= width ->
      serialize width height desktop_width = Raise OverflowError).
Proof.
  intros Hw Hh Hd.
  assert (Hrun := serialize_run width height desktop_width).
  rewrite Hrun by (assumption || lia). clear Hrun.
  split; [|split].
  - intros Hle.
    assert (Hq : (desktop_width - width) ÷ 2 = (desktop_width - width) / 2)
      by (apply Z.quot_div_nonneg; lia).
    assert (Hr : 0 <= (desktop_width - width) / 2 < 256 ^ Z.of_nat 4)
      by (rewrite pow_256_4; split;
          [apply Z.div_pos | apply Z.div_lt_upper_bound]; lia).
    rewrite Hq, to_bytes_ok by exact Hr.
    eexists _, _. split; [reflexivity|]. cbn [offset_text].
    split; [reflexivity|]. split; [apply length_le_bytes|].
    now apply le_decode_le_bytes.
  - intros ->. replace (desktop_width - (desktop_width + 1)) with (-1) by lia.
    eexists. split; reflexivity.
  - intros Hge. rewrite to_bytes_negative; [reflexivity|].
    assert (Hq : (desktop_width - width) ÷ 2
                 = - ((width - desktop_width) / 2)).
    { rewrite <- Z.quot_div_nonneg, <- Z.quot_opp_l by lia. f_equal. lia. }
    rewrite Hq.
    assert (1 <= (width - desktop_width) / 2)
      by (apply Z.div_le_lower_bound; lia).
    lia.
Qed.

Lemma offset_bytes_witness :
  (exists f bs,
     serialize 1280 720 1920 = Ok f
     /\ offset_text f = Py.hex_text bs
     /\ length bs = 4%nat
     /\ le_decode bs = (1920 - 1280) / 2)
  /\ (exists f,
        serialize 1921 1080 1920 = Ok f /\ offset_text f = "00 00 00 00")
  /\ serialize 2560 1440 1920 = Raise OverflowError.
Proof.
  split; [|split].
  - apply (offset_bytes 1280 720 1920); lia.
  - apply (offset_bytes 1921 1080 1920); lia.
  - apply (offset_bytes 2560 1440 1920); lia.
Defined.

(** ** C5 and C10: the zero sentinel *)

(** C5: when the configured width or the configured height is zero, the
    effective resolution is the desktop resolution, both values, and
    [patch] serializes exactly what it serializes for the desktop
    resolution. *)
Theorem zero_sentinel_desktop_resolution
    (width height desktop_width desktop_height : Z) :
  width = 0 \/ height = 0 ->
  effective_resolution width height desktop_width desktop_height
  = (desktop_width, desktop_height)
  /\ patch_fields width height desktop_width desktop_height
     = serialize desktop_width desktop_height desktop_width.
Proof.
  intros H.
  assert (E : effective_resolution width height desktop_width desktop_height
              = (desktop_width, desktop_height)).
  { unfold effective_resolution. destruct H as [-> | ->]; cbn.
    - reflexivity.
    - now rewrite orb_true_r. }
  split; [exact E|]. unfold patch_fields. now rewrite E.
Qed.

Lemma zero_sentinel_desktop_resolution_witness :
  effective_resolution 0 1440 1920 1080 = (1920, 1080)
  /\ patch_fields 0 1440 1920 1080 = serialize 1920 1080 1920.
Proof.
  apply (zero_sentinel_desktop_resolution 0 1440 1920 1080). left. reflexivity.
Defined.

(** C10: when the zero sentinel applies, the centering offset computed
    from the effective width is exactly zero; and for a 32-bit desktop
    resolution whose special value fits, the offset field is the encoding
    of zero. *)
Theorem zero_sentinel_offset
    (width height desktop_width desktop_height : Z) :
  width = 0 \/ height = 0 ->
  centering_offset desktop_width
    (fst (effective_resolution width height desktop_width desktop_height))
  = Ok 0
  /\ (0 <= desktop_width < 2 ^ 32 -> 0 <= desktop_height < 2 ^ 28 ->
      exists f,
        patch_fields width height desktop_width desktop_height = Ok f
        /\ offset_text f = "00 00 00 00").
Proof.
  intros H.
  assert (E : effective_resolution width height desktop_width desktop_height
              = (desktop_width, desktop_height)).
  { unfold effective_resolution. destruct H as [-> | ->]; cbn.
    - reflexivity.
    - now rewrite orb_true_r. }
  unfold patch_fields. rewrite E. cbn [fst]. split.
  - unfold centering_offset. rewrite Z.sub_diag. reflexivity.
  - intros Hw Hh. rewrite serialize_run by (assumption || lia).
    rewrite Z.sub_diag. eexists. split; reflexivity.
Qed.

Lemma zero_sentinel_offset_witness :
  centering_offset 1920 (fst (effective_resolution 2560 0 1920 1080)) = Ok 0
  /\ exists f,
       patch_fields 2560 0 1920 1080 = Ok f
       /\ offset_text f = "00 00 00 00".
Proof.
  split.
  - apply (zero_sentinel_offset 2560 0 1920 1080). right. reflexivity.
  - apply (zero_sentinel_offset 2560 0 1920 1080); [right; reflexivity | lia..].
Defined.

(** ** C8: the special value *)

(** C8: for an effective resolution that serializes (a width between zero
    and the 32-bit desktop width, a height below [2 ^ 28]), the special
    field is upper-case hex text of four bytes that are the little-endian
    encoding of the effective height shifted left by four bits; for the
    height 1080 the value is 17280 and the text is ["80 43 00 00"]. *)
Theorem special_value
    (width height desktop_width desktop_height w h : Z) :
  effective_resolution width height desktop_width desktop_height = (w, h) ->
  0 <= w <= desktop_width ->
  desktop_width < 2 ^ 32 ->
  0 <= h < 2 ^ 28 ->
  (exists f bs,
     patch_fields width height desktop_width desktop_height = Ok f
     /\ special_text f = Py.hex_text bs
     /\ upper_hex_text (special_text f) = true
     /\ length bs = 4%nat
     /\ le_decode bs = Z.shiftl h 4)
  /\ Z.shiftl 1080 4 = 17280
  /\ (exists f,
        patch_fields 1920 1080 1920 1080 = Ok f
        /\ special_text f = "80 43 00 00").
Proof.
  intros E Hw Hd Hh. split; [|split; [reflexivity|]].
  - unfold patch_fields. rewrite E.
    rewrite serialize_run by lia.
    assert (Hq : (desktop_width - w) ÷ 2 = (desktop_width - w) / 2)
      by (apply Z.quot_div_nonneg; lia).
    assert (Hr : 0 <= (desktop_width - w) / 2 < 256 ^ Z.of_nat 4)
      by (rewrite pow_256_4; split;
          [apply Z.div_pos | apply Z.div_lt_upper_bound]; lia).
    rewrite Hq, to_bytes_ok by exact Hr.
    eexists _, _. split; [reflexivity|]. cbn [special_text].
    split; [reflexivity|]. split; [apply hex_text_upper|].
    split; [apply length_le_bytes|].
    apply le_decode_le_bytes. rewrite pow_256_4, Z.shiftl_mul_pow2 by lia. lia.
  - eexists. split; reflexivity.
Qed.

Lemma special_value_witness :
  exists f bs,
    patch_fields 1280 720 1920 1080 = Ok f
    /\ special_text f = Py.hex_text bs
    /\ upper_hex_text (special_text f) = true
    /\ length bs = 4%nat
    /\ le_decode bs = Z.shiftl 720 4.
Proof.
  apply (special_value 1280 720 1920 1080 1280 720); [reflexivity | lia..].
Defined.

(** ** C2, C3 and C7: the patch engine *)

(** C2: when the file holds the search sequence, first at the offset
    [length pre], and the replacement has the same length, [edit_dll]
    returns normally and leaves the file as the same bytes before the
    occurrence, the replacement, and the same bytes after it; no other file
    changes. *)
Theorem edit_dll_overwrites_first_occurrence
    (game_path search_pattern replace_pattern : string) (w : world)
    (sp rp pre post : bytes) :
  parse_signature search_pattern = Ok sp ->
  parse_signature replace_pattern = Ok rp ->
  length rp = length sp ->
  files w !! game_path = Some (pre ++ sp ++ post) ->
  (forall j, (j < length pre)%nat -> ~ occurs_at sp (pre ++ sp ++ post) j) ->
  exists w',
    edit_dll game_path search_pattern replace_pattern w = (Ok tt, w')
    /\ files w' = <[game_path := pre ++ rp ++ post]> (files w).
Proof.
  intros Hsp Hrp Hlen Hf Hfirst.
  rewrite (edit_dll_run _ _ _ _ _ _ _ Hsp Hrp Hf).
  rewrite (find_index_first sp (pre ++ sp ++ post) (length pre));
    [|now exists pre, post | exact Hfirst].
  eexists. split; [reflexivity|]. cbn [files].
  now rewrite overwrite_occurrence.
Qed.

Lemma edit_dll_overwrites_first_occurrence_witness :
  exists w',
    edit_dll "../hackGU_title.dll" "DE AD" "BE EF " title_world = (Ok tt, w')
    /\ files w'
       = <[ "../hackGU_title.dll" := [x00] ++ [xbe; xef] ++ [x01; xde; xad] ]>
           (files title_world).
Proof.
  apply (edit_dll_overwrites_first_occurrence
           "../hackGU_title.dll" "DE AD" "BE EF " title_world
           [xde; xad] [xbe; xef] [x00] [x01; xde; xad]).
  - reflexivity.
  - reflexivity.
  - reflexivity.
  - reflexivity.
  - intros j Hj. assert (j = O) as -> by (simpl in Hj; lia).
    rewrite occurs_at_0. discriminate.
Defined.

(** C3: when the file does not hold the search sequence at any offset,
    [edit_dll] prints that it cannot find the pattern, changes no file
    (nor [patch.txt]), and returns normally, so whatever the caller runs
    next runs on the unchanged files. *)
Theorem edit_dll_pattern_absent
    (game_path search_pattern replace_pattern : string) (w : world)
    (sp rp data : bytes) :
  parse_signature search_pattern = Ok sp ->
  parse_signature replace_pattern = Ok rp ->
  files w !! game_path = Some data ->
  (forall j, ~ occurs_at sp data j) ->
  let w' := World (files w) (patch_txt w)
                  (stdout w ++ [Editing game_path;
                                CannotFind (Py.strip search_pattern);
                                DeleteAndReinstall]) in
  edit_dll game_path search_pattern replace_pattern w = (Ok tt, w')
  /\ forall (A : Type) (next : M A),
       bind (edit_dll game_path search_pattern replace_pattern)
            (fun _ => next) w
       = next w'.
Proof.
  intros Hsp Hrp Hf Habsent w'.
  assert (E : edit_dll game_path search_pattern replace_pattern w = (Ok tt, w')).
  { rewrite (edit_dll_run _ _ _ _ _ _ _ Hsp Hrp Hf).
    destruct (Py.find_index sp data) as [i|] eqn:Hi; [|reflexivity].
    now destruct (Habsent i), (find_index_Some _ _ _ Hi). }
  split; [exact E|]. intros A next. unfold bind. now rewrite E.
Qed.

Lemma edit_dll_pattern_absent_witness :
  let w' := World (files vol1_world) (patch_txt vol1_world)
                  (stdout vol1_world
                   ++ [Editing "../hackGU_vol1.dll";
                       CannotFind (Py.strip "DE AD");
                       DeleteAndReinstall]) in
  edit_dll "../hackGU_vol1.dll" "DE AD" "BE EF" vol1_world = (Ok tt, w')
  /\ forall (A : Type) (next : M A),
       bind (edit_dll "../hackGU_vol1.dll" "DE AD" "BE EF")
            (fun _ => next) vol1_world
       = next w'.
Proof.
  apply (edit_dll_pattern_absent
           "../hackGU_vol1.dll" "DE AD" "BE EF" vol1_world
           [xde; xad] [xbe; xef] [x00; xde; x01]).
  - reflexivity.
  - reflexivity.
  - reflexivity.
  - intros j Hj.
    apply (find_index_None [xde; xad] [x00; xde; x01] eq_refl j Hj).
Defined.

(** C7: when the file holds the byte sequence of the replacement pattern,
    running [edit_dll] with that pattern as the search pattern, as written
    or stripped as [patch] reads it back from [patch.txt], returns normally
    and leaves every file as it was. *)
Theorem edit_dll_rerun_idempotent
    (game_path search_pattern replace_pattern : string) (w : world)
    (rp data : bytes) (i : nat) :
  search_pattern = replace_pattern
  \/ search_pattern = Py.strip replace_pattern ->
  parse_signature replace_pattern = Ok rp ->
  files w !! game_path = Some data ->
  occurs_at rp data i ->
  exists w',
    edit_dll game_path search_pattern replace_pattern w = (Ok tt, w')
    /\ files w' = files w.
Proof.
  intros Hs Hrp Hf Hocc.
  assert (Hsp : parse_signature search_pattern = Ok rp).
  { destruct Hs as [-> | ->]; [exact Hrp|]. now rewrite parse_signature_strip. }
  rewrite (edit_dll_run _ _ _ _ _ _ _ Hsp Hrp Hf).
  destruct (Py.find_index rp data) as [k|] eqn:Hk.
  - eexists. split; [reflexivity|]. cbn [files].
    destruct (find_index_Some _ _ _ Hk) as [(pre & post & -> & <-) _].
    rewrite overwrite_occurrence by reflexivity.
    now apply insert_id.
  - now destruct (find_index_None _ _ Hk i).
Qed.

Lemma edit_dll_rerun_idempotent_witness :
  exists w',
    edit_dll "../hackGU_vol2.dll" (Py.strip "80 07 00 00 38 04 00 00 ")
             "80 07 00 00 38 04 00 00 " vol2_world
    = (Ok tt, w')
    /\ files w' = files vol2_world.
Proof.
  apply (edit_dll_rerun_idempotent
           "../hackGU_vol2.dll" (Py.strip "80 07 00 00 38 04 00 00 ")
           "80 07 00 00 38 04 00 00 " vol2_world
           [x80; x07; x00; x00; x38; x04; x00; x00]
           [x01; x80; x07; x00; x00; x38; x04; x00; x00; x02] 1%nat).
  - right. reflexivity.
  - reflexivity.
  - reflexivity.
  - exists [x01], [x02]. split; reflexivity.
Defined.

(** ** C4 and C9: the signature parser *)

(** C4: a signature laid out as valid tokens (two hex digits, ["?"] or
    ["??"]) separated by white space, with white space allowed before the
    first and after the last token, parses to the bytes of its tokens in
    order: the numeric value of a literal and zero for a wildcard; and
    ["DE AD ? 10"] parses to the bytes DE, AD, 00, 10. *)
Theorem parse_signature_valid_tokens
    (ws0 : string) (items : list (string * string)) :
  all_space ws0 = true ->
  well_spaced items = true ->
  parse_signature (ws0 +:+ spaced items)
  = Ok (map (fun item => Py.byte_of_Z (token_value (fst item))) items)
  /\ parse_signature "DE AD ? 10" = Ok [xde; xad; x00; x10].
Proof.
  intros H0 Hi. split; [now apply parse_signature_spaced | reflexivity].
Qed.

Lemma parse_signature_valid_tokens_witness :
  parse_signature
    (" " +:+ spaced [("20", "  "); ("??", String "009" EmptyString);
                     ("fF", " "); ("?", EmptyString)])
  = Ok [x20; x00; xff; x00]
  /\ parse_signature "DE AD ? 10" = Ok [xde; xad; x00; x10].
Proof.
  apply (parse_signature_valid_tokens
           " " [("20", "  "); ("??", String "009" EmptyString);
                ("fF", " "); ("?", EmptyString)]);
    reflexivity.
Defined.

(** C9, refuted as stated: ["F"] is a token that is neither two hex digits
    nor a wildcard, and [parse_signature] accepts it. *)
Lemma parse_signature_accepts_short_token :
  In "F" (Py.split "F")
  /\ valid_token "F" = false
  /\ parse_signature "F" = Ok [x0f].
Proof.
  split; [left; reflexivity|]. split; reflexivity.
Qed.

(** C9, as amended: [parse_signature] fails exactly on the strings with a
    token that is not a wildcard and that [int(token, 16)] rejects or
    converts to a value outside [range(0, 256)]; the failure is always a
    [ValueError]; and it succeeds on every string whose tokens are all two
    hex digits or wildcards. *)
Theorem parse_signature_failure (s : string) :
  (parse_signature s = Raise ValueError
   <-> exists token, In token (Py.split s) /\ accepted_token token = false)
  /\ (forall e, parse_signature s = Raise e -> e = ValueError)
  /\ (forallb valid_token (Py.split s) = true ->
      exists bs, parse_signature s = Ok bs).
Proof.
  pose proof (parse_signature_result s) as H.
  split; [|split].
  - rewrite <- forallb_false_In.
    destruct (parse_signature s) as [bs|e].
    + split; congruence.
    + destruct H as [-> H]. split; [intros _; exact H | reflexivity].
  - intros e E. rewrite E in H. tauto.
  - intros Hv. rewrite parse_signature_tokens by exact Hv. eauto.
Qed.

Lemma parse_signature_failure_witness :
  (parse_signature "DE 1FF" = Raise ValueError
   <-> exists token, In token (Py.split "DE 1FF") /\ accepted_token token = false)
  /\ exists bs, parse_signature "DE ??" = Ok bs.
Proof.
  split.
  - apply (parse_signature_failure "DE 1FF").
  - apply (parse_signature_failure "DE ??"). reflexivity.
Defined.

(** ** C6: the lengths of the two patterns *)

(** C6: the default search pattern parses to 120 bytes, and for every
    32-bit width and height the replacement pattern, built from their hex
    texts repeated 15 times, parses to 15 copies of the eight bytes of the
    pair, 120 bytes as well. *)
Theorem patterns_have_equal_length (width height : Z) :
  0 <= width < 2 ^ 32 ->
  0 <= height < 2 ^ 32 ->
  exists sp wb hb rp,
    parse_signature default_search_pattern = Ok sp
    /\ length sp = 120%nat
    /\ Py.to_bytes width 4 = Ok wb
    /\ Py.to_bytes height 4 = Ok hb
    /\ parse_signature
         (build_replace_pattern (Py.hex_text wb) (Py.hex_text hb))
       = Ok rp
    /\ rp = concat (replicate 15 (wb ++ hb))
    /\ length rp = length sp.
Proof.
  intros Hw Hh.
  destruct (parse_signature default_search_pattern) as [sp|e] eqn:Esp;
    [|vm_compute in Esp; discriminate Esp].
  assert (Hsp : length sp = 120%nat).
  { vm_compute in Esp. injection Esp as <-. reflexivity. }
  exists sp, (Py.le_bytes 4 width), (Py.le_bytes 4 height),
    (concat (replicate 15 (Py.le_bytes 4 width ++ Py.le_bytes 4 height))).
  split; [reflexivity|]. split; [exact Hsp|].
  split; [apply to_bytes_ok; rewrite pow_256_4; lia|].
  split; [apply to_bytes_ok; rewrite pow_256_4; lia|].
  cbn [Py.le_bytes].
  generalize (Py.byte_of_Z (width mod 256))
             (Py.byte_of_Z (width / 256 mod 256))
             (Py.byte_of_Z (width / 256 / 256 mod 256))
             (Py.byte_of_Z (width / 256 / 256 / 256 mod 256))
             (Py.byte_of_Z (height mod 256))
             (Py.byte_of_Z (height / 256 mod 256))
             (Py.byte_of_Z (height / 256 / 256 mod 256))
             (Py.byte_of_Z (height / 256 / 256 / 256 mod 256)).
  intros a b c d e f g h.
  rewrite build_replace_pattern_hex_line, parse_signature_hex_line.
  split; [reflexivity|]. split; [reflexivity|]. now rewrite Hsp.
Qed.

Lemma patterns_have_equal_length_witness :
  exists sp wb hb rp,
    parse_signature default_search_pattern = Ok sp
    /\ length sp = 120%nat
    /\ Py.to_bytes 1920 4 = Ok wb
    /\ Py.to_bytes 1080 4 = Ok hb
    /\ parse_signature
         (build_replace_pattern (Py.hex_text wb) (Py.hex_text hb))
       = Ok rp
    /\ rp = concat (replicate 15 (wb ++ hb))
    /\ length rp = length sp.
Proof.
  apply (patterns_have_equal_length 1920 1080); lia.
Defined.

(** ** A run of the whole script *)

(** On the fresh installation, [patch] at 1280 x 720 replaces the table of
    the one library it finds by 15 copies of the pair and records the
    pattern; a second run with the same configuration finds the recorded
    pattern and leaves the library as the first run left it. *)
Example patch_twice :
  fst first_run = Ok tt
  /\ files (snd first_run) !! "../hackGU_title.dll"
     = Some ([x4d; x5a] ++ new_table ++ [x00])
  /\ patch_txt (snd first_run) = Some (hex_line new_table)
  /\ fst second_run = Ok tt
  /\ files (snd second_run) = files (snd first_run).
Proof. repeat (split; [vm_compute; reflexivity|]). vm_compute. reflexivity. Qed.

(** A width beyond the desktop width stops the script before any file is
    opened. *)
Example patch_wider_than_desktop :
  patch (Some (2560, 1440)) desktop_1080p fresh_install
  = (Raise OverflowError,
     World (files fresh_install) None [YamlWidth 2560; YamlHeight 1440]).
Proof. vm_compute. reflexivity. Qed.

(** * Further properties of the script *)

(** ** The desktop resolution *)

Lemma find_no_primary (monitors : list monitor) :
  forallb (fun m => negb (is_primary m)) monitors = true ->
  List.find is_primary monitors = None.
Proof.
  induction monitors as [|m ms IH]; [reflexivity|].
  cbn [forallb List.find]. intros [Hm Hms]%andb_true_iff.
  apply negb_true_iff in Hm. rewrite Hm. auto.
Qed.

Lemma find_first_primary (pre : list monitor) (m : monitor) (post : list monitor) :
  forallb (fun m => negb (is_primary m)) pre = true ->
  is_primary m = true ->
  List.find is_primary (pre ++ m :: post) = Some m.
Proof.
  intros Hpre Hm. induction pre as [|x pre IH]; cbn [app List.find].
  - now rewrite Hm.
  - cbn [forallb] in Hpre. apply andb_true_iff in Hpre as [Hx Hpre].
    apply negb_true_iff in Hx. rewrite Hx. auto.
Qed.

(** X1: [get_desktop_resolution] returns the resolution of the first
    monitor marked primary; when no monitor is primary, that of the first
    monitor; and it raises, with [IndexError], exactly when there is no
    monitor at all. *)
Theorem get_desktop_resolution_spec (monitors : list monitor) :
  (forall pre m post,
     monitors = pre ++ m :: post ->
     forallb (fun x => negb (is_primary x)) pre = true ->
     is_primary m = true ->
     get_desktop_resolution monitors = Ok (monitor_width m, monitor_height m))
  /\ (forall m rest,
        monitors = m :: rest ->
        forallb (fun x => negb (is_primary x)) monitors = true ->
        get_desktop_resolution monitors = Ok (monitor_width m, monitor_height m))
  /\ (forall e,
        get_desktop_resolution monitors = Raise e <->
        monitors = [] /\ e = IndexError).
Proof.
  split; [|split].
  - intros pre m post -> Hpre Hm. unfold get_desktop_resolution.
    now rewrite find_first_primary.
  - intros m rest -> Hall. unfold get_desktop_resolution.
    now rewrite find_no_primary.
  - intros e. unfold get_desktop_resolution.
    destruct (List.find is_primary monitors) as [m|] eqn:F.
    + split; [discriminate|]. intros [-> _]. discriminate F.
    + destruct monitors as [|m ms].
      * split; [now intros [= <-] | now intros [_ ->]].
      * split; [discriminate | intros [? _]; discriminate].
Qed.

Lemma get_desktop_resolution_spec_witness :
  get_desktop_resolution desktop_1080p = Ok (1920, 1080)
  /\ get_desktop_resolution no_primary = Ok (1280, 1024)
  /\ get_desktop_resolution [] = Raise IndexError.
Proof.
  split; [|split].
  - apply (proj1 (get_desktop_resolution_spec desktop_1080p)
             [Monitor false 1280 1024] (Monitor true 1920 1080) []);
      reflexivity.
  - apply (proj1 (proj2 (get_desktop_resolution_spec no_primary))
             (Monitor false 1280 1024) [Monitor false 1920 1080]);
      reflexivity.
  - apply (proj2 (proj2 (get_desktop_resolution_spec [])) IndexError).
    split; reflexivity.
Defined.

(** ** More on the signature parser *)

Lemma parse_tokens_values (tokens : list string) (vs : list Z) :
  parse_tokens tokens = Ok vs ->
  Forall2 (fun token v =>
             if is_wildcard token then v = 0 else Py.int16 token = Ok v)
          tokens vs.
Proof.
  revert vs. induction tokens as [|t ts IH]; intros vs.
  - cbn. intros [= <-]. constructor.
  - cbn [parse_tokens].
    destruct (is_wildcard t) eqn:W.
    + cbn [rbind]. destruct (parse_tokens ts) as [vs'|e]; [|discriminate].
      cbn [rbind]. intros [= <-]. constructor; [now rewrite W | now apply IH].
    + destruct (Py.int16 t) as [v|e] eqn:E; [|discriminate].
      cbn [rbind]. destruct (parse_tokens ts) as [vs'|e]; [|discriminate].
      cbn [rbind]. intros [= <-]. constructor; [now rewrite W | now apply IH].
Qed.

(** X2: when [parse_signature] succeeds it yields one byte per token of
    [signature.split()], in order: zero for a wildcard, and otherwise the
    value [int(token, 16)] gives for the token. *)
Theorem parse_signature_bytes (signature : string) (bs : bytes) :
  parse_signature signature = Ok bs ->
  length bs = length (Py.split signature)
  /\ Forall2 (fun token b =>
                if is_wildcard token then b = x00
                else Py.int16 token = Ok (Py.Z_of_byte b))
             (Py.split signature) bs.
Proof.
  unfold parse_signature.
  destruct (parse_tokens (Py.split signature)) as [vs|e] eqn:E; [|discriminate].
  cbn [rbind]. unfold Py.bytes_of_ints.
  destruct (forallb Py.in_byte_range vs) eqn:R; [|discriminate].
  intros [= <-]. apply parse_tokens_values in E.
  assert (H : Forall2 (fun token b =>
                         if is_wildcard token then b = x00
                         else Py.int16 token = Ok (Py.Z_of_byte b))
                      (Py.split signature) (map Py.byte_of_Z vs)).
  { revert R. induction E as [|t v ts vs' Htv E IH]; intros R; [constructor|].
    cbn [forallb] in R. apply andb_true_iff in R as [Rv R].
    cbn [map]. constructor; [|now apply IH].
    destruct (is_wildcard t); [now subst|].
    rewrite Z_of_byte_of_Z; [exact Htv|].
    unfold Py.in_byte_range in Rv. apply andb_true_iff in Rv as [R0 R1].
    apply Z.leb_le in R0. apply Z.ltb_lt in R1. lia. }
  split; [|exact H]. symmetry. exact (Forall2_length _ _ _ H).
Qed.

Lemma parse_signature_bytes_witness :
  length [xde; x00; x0f; x1f] = length (Py.split " DE ??  F 0x1F")
  /\ Forall2 (fun token b =>
                if is_wildcard token then b = x00
                else Py.int16 token = Ok (Py.Z_of_byte b))
             (Py.split " DE ??  F 0x1F") [xde; x00; x0f; x1f].
Proof.
  apply (parse_signature_bytes " DE ??  F 0x1F" [xde; x00; x0f; x1f]).
  reflexivity.
Defined.

Lemma parse_tokens_unwild (tokens : list string) :
  parse_tokens (map unwild tokens) = parse_tokens tokens.
Proof.
  induction tokens as [|t ts IH]; [reflexivity|].
  cbn [map parse_tokens]. rewrite IH. unfold unwild.
  destruct (is_wildcard t) eqn:W; [reflexivity | now rewrite W].
Qed.

(** X3: a wildcard is parsed exactly like the literal ["00"]: two
    signatures whose tokens differ only in that one writes ["00"] where
    the other writes ["?"] or ["??"] parse to the same result, so the
    search treats a wildcard position as the byte zero. *)
Theorem wildcard_is_literal_zero (signature literal : string) :
  Py.split literal = map unwild (Py.split signature) ->
  parse_signature literal = parse_signature signature.
Proof.
  intros H. unfold parse_signature. now rewrite H, parse_tokens_unwild.
Qed.

Lemma wildcard_is_literal_zero_witness :
  parse_signature "DE 00 AD  00" = parse_signature "DE ? AD ??".
Proof.
  apply (wildcard_is_literal_zero "DE ? AD ??" "DE 00 AD  00"). reflexivity.
Defined.

Lemma hex_items_cons (b b' : byte) (bs : bytes) :
  hex_items (b :: b' :: bs) = (Py.format_02X b, " ") :: hex_items (b' :: bs)
  /\ exists item rest, hex_items (b' :: bs) = item :: rest.
Proof.
  split; [reflexivity|]. destruct bs; cbn [hex_items]; eauto.
Qed.

Lemma hex_text_items (bs : bytes) :
  Py.hex_text bs = spaced (hex_items bs) /\ well_spaced (hex_items bs) = true
  /\ map (fun item => Py.byte_of_Z (token_value (fst item))) (hex_items bs) = bs.
Proof.
  unfold Py.hex_text. induction bs as [|b bs IH]; [repeat split|].
  destruct IH as (IH1 & IH2 & IH3).
  destruct (format_02X_token b) as [Hv Ht].
  destruct bs as [|b' bs].
  - cbn [map String.concat hex_items spaced well_spaced fst].
    rewrite Hv, Ht, byte_of_Z_of_byte, !append_empty_r. repeat split.
  - destruct (hex_items_cons b b' bs) as [-> (item & rest & E)].
    change (String.concat " " (map Py.format_02X (b :: b' :: bs)))
      with (Py.format_02X b +:+ " "
            +:+ String.concat " " (map Py.format_02X (b' :: bs))).
    rewrite IH1. rewrite E in IH2, IH3 |- *.
    cbn [spaced well_spaced map fst]. cbn [map fst] in IH3.
    rewrite Hv, Ht, byte_of_Z_of_byte, IH3.
    split; [reflexivity|]. split; [exact IH2 | reflexivity].
Qed.

Lemma rstrip_all_space (ws : string) :
  all_space ws = true -> Py.rstrip_by Py.isspace ws = EmptyString.
Proof.
  induction ws as [|c ws IH]; [reflexivity|].
  cbn [all_space Py.rstrip_by]. intros [Hc Hw]%andb_true_iff.
  now rewrite IH, Hc.
Qed.

Lemma rstrip_app_space (s ws : string) :
  all_space ws = true ->
  Py.rstrip_by Py.isspace (s +:+ ws) = Py.rstrip_by Py.isspace s.
Proof.
  intros Hw. induction s as [|c s IH].
  - now apply rstrip_all_space.
  - rewrite append_cons. cbn [Py.rstrip_by]. now rewrite IH.
Qed.

Lemma split_trailing_space (s ws : string) :
  all_space ws = true -> Py.split (s +:+ ws) = Py.split s.
Proof.
  intros Hw. rewrite <- (rstrip_split (s +:+ ws)), <- (rstrip_split s).
  now rewrite rstrip_app_space.
Qed.

(** X4: the hex text [patch] renders from a byte sequence parses back to
    that sequence, and so does the same text followed by a blank. *)
Theorem parse_signature_hex_text (bs : bytes) :
  parse_signature (Py.hex_text bs) = Ok bs
  /\ parse_signature (Py.hex_text bs +:+ " ") = Ok bs.
Proof.
  destruct (hex_text_items bs) as (E & Hw & Hm).
  assert (H : parse_signature (Py.hex_text bs) = Ok bs).
  { pose proof (parse_signature_spaced EmptyString _ eq_refl Hw) as H.
    change (EmptyString +:+ ?x) with x in H. now rewrite E, H, Hm. }
  split; [exact H|].
  unfold parse_signature in *. now rewrite split_trailing_space.
Qed.

(** ** More on the serialization *)

Lemma to_bytes_inv (n : Z) (len : nat) (bs : bytes) :
  Py.to_bytes n len = Ok bs ->
  0 <= n < 256 ^ Z.of_nat len /\ bs = Py.le_bytes len n.
Proof.
  unfold Py.to_bytes.
  destruct (n <? 0) eqn:E0; [discriminate|].
  destruct (256 ^ Z.of_nat len <=? n) eqn:E1; [discriminate|].
  apply Z.ltb_ge in E0. apply Z.leb_gt in E1. intros [= <-].
  split; [lia | reflexivity].
Qed.

Lemma to_bytes_raise (n : Z) (len : nat) (e : exn) :
  Py.to_bytes n len = Raise e -> e = OverflowError.
Proof.
  unfold Py.to_bytes.
  destruct (n <? 0); [congruence|].
  destruct (256 ^ Z.of_nat len <=? n); congruence.
Qed.

Lemma int_truediv2_raise (a : Z) (e : exn) :
  Py.int_truediv2 a = Raise e -> e = OverflowError.
Proof.
  unfold Py.int_truediv2.
  destruct (2 ^ 1025 <=? Z.abs (Py.round53 a)); congruence.
Qed.

Lemma quot2_bounds (d k : Z) :
  0 < k -> (0 <= d ÷ 2 <-> -1 <= d) /\ (d ÷ 2 < k <-> d < 2 * k).
Proof.
  intros Hk. pose proof (Z.quot_rem' d 2) as E.
  destruct (Z.le_gt_cases 0 d) as [H|H].
  - pose proof (Z.rem_bound_pos d 2 H ltac:(lia)). lia.
  - clear E. pose proof (Z.quot_rem' (- d) 2) as E.
    pose proof (Z.rem_bound_pos (- d) 2 ltac:(lia) ltac:(lia)).
    pose proof (Z.quot_opp_l d 2 ltac:(lia)). lia.
Qed.

Lemma serialize_raises (w h dw : Z) (e : exn) :
  serialize w h dw = Raise e -> e = OverflowError.
Proof.
  unfold serialize, centering_offset.
  destruct (Py.int_truediv2 (dw - w)) as [o|e'] eqn:E1; cbn [rbind];
    [|intros [= <-]; now apply int_truediv2_raise in E1].
  destruct (Py.to_bytes (Z.shiftl h 4) 4) as [sb|e'] eqn:E2; cbn [rbind];
    [|intros [= <-]; now apply to_bytes_raise in E2].
  destruct (Py.to_bytes w 4) as [wb|e'] eqn:E3; cbn [rbind];
    [|intros [= <-]; now apply to_bytes_raise in E3].
  destruct (Py.to_bytes h 4) as [hb|e'] eqn:E4; cbn [rbind];
    [|intros [= <-]; now apply to_bytes_raise in E4].
  destruct (Py.to_bytes o 4) as [ob|e'] eqn:E5; cbn [rbind];
    [discriminate | intros [= <-]; now apply to_bytes_raise in E5].
Qed.

(** X5: for widths within the exact range of the float division, the
    serialization of [patch] succeeds exactly when the width fits in 32
    bits, the height is below [2 ^ 28] (so that the special value fits),
    and the width exceeds the desktop width by at most one; and whatever
    the input, the only exception it raises is [OverflowError]. *)
Theorem serialize_succeeds_iff (width height desktop_width : Z) :
  Z.abs (desktop_width - width) < 2 ^ 53 ->
  ((exists f, serialize width height desktop_width = Ok f) <->
   0 <= width < 2 ^ 32 /\ 0 <= height < 2 ^ 28
   /\ width <= desktop_width + 1 /\ desktop_width - width < 2 ^ 33)
  /\ forall w h dw e, serialize w h dw = Raise e -> e = OverflowError.
Proof.
  intros Hd. split.
  - destruct (quot2_bounds (desktop_width - width) (2 ^ 32) ltac:(lia))
      as [Q0 Q1].
    split.
    + intros [f Hf]. unfold serialize, centering_offset in Hf.
      rewrite int_truediv2_exact in Hf by exact Hd. cbn [rbind] in Hf.
      destruct (Py.to_bytes (Z.shiftl height 4) 4) as [sb|] eqn:Es;
        [|discriminate]. cbn [rbind] in Hf.
      destruct (Py.to_bytes width 4) as [wb|] eqn:Ew; [|discriminate].
      cbn [rbind] in Hf.
      destruct (Py.to_bytes height 4) as [hb|] eqn:Eh; [|discriminate].
      cbn [rbind] in Hf.
      destruct (Py.to_bytes ((desktop_width - width) ÷ 2) 4) as [ob|] eqn:Eo;
        [|discriminate].
      apply to_bytes_inv in Es as [Hs _]. apply to_bytes_inv in Ew as [Hw _].
      apply to_bytes_inv in Eo as [Ho _].
      rewrite pow_256_4 in Hs, Hw, Ho.
      rewrite Z.shiftl_mul_pow2 in Hs by lia. lia.
    + intros (Hw & Hh & Hle & Hlt).
      rewrite serialize_run by assumption.
      rewrite to_bytes_ok by (rewrite pow_256_4; lia). eauto.
  - intros w h dw e. apply serialize_raises.
Qed.

Lemma serialize_succeeds_iff_witness :
  (exists f, serialize 1921 1080 1920 = Ok f)
  /\ ~ (exists f, serialize 1920 (2 ^ 28) 1920 = Ok f)
  /\ (forall e, serialize 2560 1440 1920 = Raise e -> e = OverflowError).
Proof.
  split; [|split].
  - apply (proj1 (serialize_succeeds_iff 1921 1080 1920 ltac:(lia))). lia.
  - intros H.
    apply (proj1 (serialize_succeeds_iff 1920 (2 ^ 28) 1920 ltac:(lia))) in H.
    lia.
  - apply (proj2 (serialize_succeeds_iff 2560 1440 1920 ltac:(lia))).
Defined.



(** ** More on the patch engine *)

(** Every run of [edit_dll], by what it meets on its way. *)
Lemma edit_dll_cases (game_path search_pattern replace_pattern : string)
    (w : world) :
  edit_dll game_path search_pattern replace_pattern w =
  match parse_signature search_pattern, parse_signature replace_pattern with
  | Raise e, _ | Ok _, Raise e =>
      (Raise e,
       World (files w) (patch_txt w) (stdout w ++ [Editing game_path]))
  | Ok sp, Ok rp =>
      match files w !! game_path with
      | None =>
          (Ok tt,
           World (files w) (patch_txt w)
                 (stdout w ++ [Editing game_path; ErrorFileNotFound game_path]))
      | Some data =>
          match Py.find_index sp data with
          | Some i =>
              (Ok tt,
               World (<[game_path := overwrite data i rp]> (files w))
                     (Some replace_pattern)
                     (stdout w ++ [Editing game_path;
                                   Found (Py.strip search_pattern) (Z.of_nat i);
                                   ReplacedWith replace_pattern (Z.of_nat i)]))
          | None =>
              (Ok tt,
               World (files w) (patch_txt w)
                     (stdout w ++ [Editing game_path;
                                   CannotFind (Py.strip search_pattern);
                                   DeleteAndReinstall]))
          end
      end
  end.
Proof.
  destruct (parse_signature search_pattern) as [sp|e] eqn:Hsp.
  - destruct (parse_signature replace_pattern) as [rp|e] eqn:Hrp.
    + destruct (files w !! game_path) as [data|] eqn:Hf.
      * exact (edit_dll_run _ _ _ _ _ _ _ Hsp Hrp Hf).
      * unfold edit_dll, bind, lift, try_except, print, read_binary.
        cbn [files patch_txt stdout].
        rewrite parse_signature_strip, Hsp, Hrp, Hf.
        cbn [files patch_txt stdout]. now rewrite <- app_assoc.
    + unfold edit_dll, bind, lift, try_except, print.
      cbn [files patch_txt stdout].
      now rewrite parse_signature_strip, Hsp, Hrp.
  - unfold edit_dll, bind, lift, try_except, print.
    cbn [files patch_txt stdout].
    now rewrite parse_signature_strip, Hsp.
Qed.

(** X7: when both patterns parse and the file is missing, [edit_dll]
    prints that the file was not found, changes nothing and returns
    normally. *)
Theorem edit_dll_missing_file
    (game_path search_pattern replace_pattern : string) (w : world)
    (sp rp : bytes) :
  parse_signature search_pattern = Ok sp ->
  parse_signature replace_pattern = Ok rp ->
  files w !! game_path = None ->
  edit_dll game_path search_pattern replace_pattern w
  = (Ok tt,
     World (files w) (patch_txt w)
           (stdout w ++ [Editing game_path; ErrorFileNotFound game_path])).
Proof.
  intros Hsp Hrp Hf. now rewrite edit_dll_cases, Hsp, Hrp, Hf.
Qed.

Lemma edit_dll_missing_file_witness :
  edit_dll "../hackGU_vol3.dll" "DE AD" "BE EF" title_world
  = (Ok tt,
     World (files title_world) (patch_txt title_world)
           (stdout title_world
            ++ [Editing "../hackGU_vol3.dll";
                ErrorFileNotFound "../hackGU_vol3.dll"])).
Proof.
  apply (edit_dll_missing_file "../hackGU_vol3.dll" "DE AD" "BE EF"
           title_world [xde; xad] [xbe; xef]); reflexivity.
Defined.

(** X8: when the search pattern or the replacement pattern does not
    parse, [edit_dll] raises [ValueError] to its caller before it opens the
    file: nothing is written, whether or not the file exists. *)
Theorem edit_dll_malformed_pattern
    (game_path search_pattern replace_pattern : string) (w : world) :
  (exists e, parse_signature search_pattern = Raise e)
  \/ (exists e, parse_signature replace_pattern = Raise e) ->
  edit_dll game_path search_pattern replace_pattern w
  = (Raise ValueError,
     World (files w) (patch_txt w) (stdout w ++ [Editing game_path])).
Proof.
  intros H. rewrite edit_dll_cases.
  pose proof (parse_signature_result search_pattern) as Rs.
  pose proof (parse_signature_result replace_pattern) as Rr.
  destruct (parse_signature search_pattern) as [sp|e1].
  - destruct (parse_signature replace_pattern) as [rp|e2].
    + destruct H as [[e H]|[e H]]; discriminate H.
    + now destruct Rr as [-> _].
  - now destruct Rs as [-> _].
Qed.

Lemma edit_dll_malformed_pattern_witness :
  edit_dll "../hackGU_title.dll" "DE AD" "BE EFG" title_world
  = (Raise ValueError,
     World (files title_world) (patch_txt title_world)
           (stdout title_world ++ [Editing "../hackGU_title.dll"])).
Proof.
  apply (edit_dll_malformed_pattern "../hackGU_title.dll" "DE AD" "BE EFG"
           title_world).
  right. exists ValueError. reflexivity.
Defined.

Lemma edit_dll_effects
    (game_path search_pattern replace_pattern : string) (w : world) :
  let w' := snd (edit_dll game_path search_pattern replace_pattern w) in
  (forall path, path <> game_path -> files w' !! path = files w !! path)
  /\ (is_Some (files w' !! game_path) <-> is_Some (files w !! game_path))
  /\ (exists printed, stdout w' = stdout w ++ printed)
  /\ (patch_txt w' = patch_txt w \/ patch_txt w' = Some replace_pattern).
Proof.
  rewrite edit_dll_cases.
  destruct (parse_signature search_pattern) as [sp|e1];
    [destruct (parse_signature replace_pattern) as [rp|e2];
     [destruct (files w !! game_path) as [data|] eqn:Hf;
      [destruct (Py.find_index sp data) as [i|]|]|]|];
    cbn [snd files patch_txt stdout]; rewrite ?Hf;
    (split; [|split; [|split; [eexists; reflexivity | auto]]]);
    try (intros; reflexivity); try tauto.
  - intros path Hne. now rewrite lookup_insert_ne.
  - rewrite lookup_insert_eq. split; eauto.
Qed.


(** X10: when the search bytes are found, first at the offset
    [length pre], [edit_dll] writes the replacement there whatever its
    length: the bytes before the offset stay, the replacement follows, and
    of the old bytes only those beyond the end of the replacement remain.
    The file never shrinks: a longer replacement overwrites what followed
    the match and may extend the file. *)
Theorem edit_dll_overwrites_any_length
    (game_path search_pattern replace_pattern : string) (w : world)
    (sp rp pre post : bytes) :
  parse_signature search_pattern = Ok sp ->
  parse_signature replace_pattern = Ok rp ->
  files w !! game_path = Some (pre ++ sp ++ post) ->
  (forall j, (j < length pre)%nat -> ~ occurs_at sp (pre ++ sp ++ post) j) ->
  let patched := pre ++ rp ++ drop (length rp) (sp ++ post) in
  files (snd (edit_dll game_path search_pattern replace_pattern w)) !! game_path
  = Some patched
  /\ length patched
     = Nat.max (length (pre ++ sp ++ post)) (length pre + length rp).
Proof.
  intros Hsp Hrp Hf Hfirst patched.
  rewrite (edit_dll_run _ _ _ _ _ _ _ Hsp Hrp Hf).
  rewrite (find_index_first sp (pre ++ sp ++ post) (length pre));
    [|now exists pre, post | exact Hfirst].
  cbn [snd files]. rewrite lookup_insert_eq. split.
  - f_equal. unfold overwrite, patched.
    rewrite take_app_length. f_equal. f_equal.
    now rewrite drop_app_add.
  - unfold patched. rewrite !length_app, length_drop, length_app. lia.
Qed.

Lemma edit_dll_overwrites_any_length_witness :
  files (snd (edit_dll "../hackGU_title.dll" "DE AD" "BE" title_world))
    !! "../hackGU_title.dll"
  = Some ([x00] ++ [xbe] ++ drop (length [xbe]) ([xde; xad] ++ [x01; xde; xad]))
  /\ length ([x00] ++ [xbe]
             ++ drop (length [xbe]) ([xde; xad] ++ [x01; xde; xad]))
     = Nat.max (length ([x00] ++ [xde; xad] ++ [x01; xde; xad]))
               (length [x00] + length [xbe]).
Proof.
  apply (edit_dll_overwrites_any_length "../hackGU_title.dll" "DE AD" "BE"
           title_world [xde; xad] [xbe] [x00] [x01; xde; xad]).
  - reflexivity.
  - reflexivity.
  - reflexivity.
  - intros j Hj. assert (j = O) as -> by (simpl in Hj; lia).
    rewrite occurs_at_0. discriminate.
Defined.

(** X11: when both patterns parse and the file holds the search bytes,
    [edit_dll] records the replacement pattern, as given, in [patch.txt],
    and the offset it reports is one where the search bytes occur, with no
    occurrence below it. *)
Theorem edit_dll_records_pattern
    (game_path search_pattern replace_pattern : string) (w : world)
    (sp rp data : bytes) (i : nat) :
  parse_signature search_pattern = Ok sp ->
  parse_signature replace_pattern = Ok rp ->
  files w !! game_path = Some data ->
  occurs_at sp data i ->
  exists k w',
    edit_dll game_path search_pattern replace_pattern w = (Ok tt, w')
    /\ patch_txt w' = Some replace_pattern
    /\ stdout w'
       = stdout w ++ [Editing game_path;
                      Found (Py.strip search_pattern) (Z.of_nat k);
                      ReplacedWith replace_pattern (Z.of_nat k)]
    /\ occurs_at sp data k
    /\ (k <= i)%nat
    /\ forall j, (j < k)%nat -> ~ occurs_at sp data j.
Proof.
  intros Hsp Hrp Hf Hocc.
  rewrite (edit_dll_run _ _ _ _ _ _ _ Hsp Hrp Hf).
  destruct (Py.find_index sp data) as [k|] eqn:Hk.
  - destruct (find_index_Some _ _ _ Hk) as [Hok Hlt].
    exists k. eexists. split; [reflexivity|]. cbn [patch_txt stdout].
    repeat (split; [reflexivity || assumption|]).
    split; [|exact Hlt].
    destruct (Nat.le_gt_cases k i) as [H|H]; [exact H|].
    now destruct (Hlt i H).
  - now destruct (find_index_None _ _ Hk i).
Qed.

Lemma edit_dll_records_pattern_witness :
  exists k w',
    edit_dll "../hackGU_title.dll" "DE AD" "BE EF " title_world = (Ok tt, w')
    /\ patch_txt w' = Some "BE EF "
    /\ stdout w'
       = stdout title_world
         ++ [Editing "../hackGU_title.dll";
             Found (Py.strip "DE AD") (Z.of_nat k);
             ReplacedWith "BE EF " (Z.of_nat k)]
    /\ occurs_at [xde; xad] [x00; xde; xad; x01; xde; xad] k
    /\ (k <= 4)%nat
    /\ forall j, (j < k)%nat
                 -> ~ occurs_at [xde; xad] [x00; xde; xad; x01; xde; xad] j.
Proof.
  apply (edit_dll_records_pattern "../hackGU_title.dll" "DE AD" "BE EF "
           title_world [xde; xad] [xbe; xef]
           [x00; xde; xad; x01; xde; xad] 4%nat).
  - reflexivity.
  - reflexivity.
  - reflexivity.
  - exists [x00; xde; xad; x01], []. split; reflexivity.
Defined.

(** ** The recorded pattern *)

Lemma readlines_nil (s : string) : readlines s = [] <-> s = EmptyString.
Proof.
  split; [|now intros ->].
  destruct s as [|c s]; [reflexivity|]. cbn [readlines].
  destruct (Ascii.eqb c "010"); [discriminate|].
  destruct (Ascii.eqb c "013").
  - destruct s as [|[[] [] [] [] [] [] [] []] s]; discriminate.
  - destruct (readlines s); discriminate.
Qed.

Lemma readlines_break (c : ascii) (rest : string) :
  is_linebreak c = true ->
  exists ls, readlines (String c rest) = String "010" EmptyString :: ls.
Proof.
  unfold is_linebreak. intros H. cbn [readlines].
  destruct (Ascii.eqb c "010"); [eauto|].
  cbn [orb] in H. rewrite H.
  destruct rest as [|[[] [] [] [] [] [] [] []] r]; eauto.
Qed.

(** The first line [readlines] returns: the text up to the first line
    break, with ["\n"] for the break. *)
Lemma readlines_first_line (line rest : string) :
  no_linebreak line = true -> ends_line rest ->
  (rest = EmptyString -> line <> EmptyString -> readlines (line +:+ rest) = [line])
  /\ (rest <> EmptyString ->
      exists ls,
        readlines (line +:+ rest) = (line +:+ String "010" EmptyString) :: ls).
Proof.
  intros Hl Hr. induction line as [|c l IH].
  - split; [congruence|]. intros Hne.
    destruct rest as [|c r]; [congruence|]. now apply readlines_break.
  - cbn [no_linebreak] in Hl. apply andb_true_iff in Hl as [Hc Hl].
    apply negb_true_iff in Hc. unfold is_linebreak in Hc.
    apply orb_false_iff in Hc as [Hn Hcr].
    destruct (IH Hl) as [IH1 IH2].
    rewrite append_cons. cbn [readlines]. rewrite Hn, Hcr. split.
    + intros -> _. rewrite append_empty_r in *.
      destruct l as [|c' l']; [reflexivity|].
      now rewrite IH1.
    + intros Hne. destruct (IH2 Hne) as [ls ->].
      exists ls. reflexivity.
Qed.

Lemma lstrip_all_space (ws : string) :
  all_space ws = true -> Py.lstrip_by Py.isspace ws = EmptyString.
Proof.
  induction ws as [|c ws IH]; [reflexivity|].
  cbn [all_space Py.lstrip_by]. intros [Hc Hw]%andb_true_iff.
  rewrite Hc. auto.
Qed.

Lemma strip_app_space (s ws : string) :
  all_space ws = true -> Py.strip (s +:+ ws) = Py.strip s.
Proof.
  intros Hw. unfold Py.strip, Py.strip_by.
  induction s as [|c s IH].
  - cbn [String.append Py.lstrip_by]. change (EmptyString +:+ ws) with ws.
    now rewrite lstrip_all_space.
  - rewrite append_cons. cbn [Py.lstrip_by].
    destruct (Py.isspace c); [exact IH|].
    rewrite <- append_cons. now apply rstrip_app_space.
Qed.

Lemma choose_search_pattern_result (default : string) (w : world) :
  match patch_txt w with
  | None =>
      choose_search_pattern default w
      = (Ok default,
         World (files w) (patch_txt w)
               (stdout w ++ [PatchTxtNotFound; WillSearchDefault default]))
  | Some text =>
      match readlines text with
      | [] =>
          choose_search_pattern default w
          = (Raise IndexError,
             World (files w) (patch_txt w) (stdout w ++ [PatchTxtFound]))
      | line :: _ =>
          choose_search_pattern default w
          = (Ok (Py.strip line),
             World (files w) (patch_txt w)
                   (stdout w ++ [PatchTxtFound; WillSearchFor (Py.strip line)]))
      end
  end.
Proof.
  unfold choose_search_pattern, try_except, bind, read_patch_txt, print, ret,
    lift.
  destruct (patch_txt w) as [text|] eqn:Hp; cbn [files patch_txt stdout].
  - destruct (readlines text) as [|line ls]; cbn [files patch_txt stdout].
    + now rewrite Hp.
    + now rewrite Hp, <- app_assoc.
  - now rewrite Hp, <- app_assoc.
Qed.

Lemma choose_search_pattern_line (default line rest : string) (w : world) :
  patch_txt w = Some (line +:+ rest) ->
  no_linebreak line = true -> ends_line rest ->
  line +:+ rest <> EmptyString ->
  choose_search_pattern default w
  = (Ok (Py.strip line),
     World (files w) (patch_txt w)
           (stdout w ++ [PatchTxtFound; WillSearchFor (Py.strip line)])).
Proof.
  intros Hp Hl Hr Hne.
  destruct (readlines_first_line line rest Hl Hr) as [H1 H2].
  pose proof (choose_search_pattern_result default w) as H.
  rewrite Hp in H |- *.
  destruct rest as [|c r].
  - rewrite append_empty_r in *. rewrite H1 in H by congruence. exact H.
  - destruct (H2 ltac:(congruence)) as [ls E]. rewrite E in H.
    now rewrite strip_app_space in H by reflexivity.
Qed.

(** X12: when [patch.txt] exists and is not empty, the search pattern is
    its first line, up to the first line break ([\n], [\r] or [\r\n]),
    stripped of surrounding white space; what follows the first line is
    ignored and no file changes. *)
Theorem choose_search_pattern_first_line
    (default line rest : string) (w : world) :
  patch_txt w = Some (line +:+ rest) ->
  no_linebreak line = true ->
  ends_line rest ->
  line +:+ rest <> EmptyString ->
  choose_search_pattern default w
  = (Ok (Py.strip line),
     World (files w) (patch_txt w)
           (stdout w ++ [PatchTxtFound; WillSearchFor (Py.strip line)])).
Proof. apply choose_search_pattern_line. Qed.

Lemma choose_search_pattern_first_line_witness :
  choose_search_pattern default_search_pattern recorded_world
  = (Ok (Py.strip (String "009" "DE AD ")),
     World (files recorded_world) (patch_txt recorded_world)
           (stdout recorded_world
            ++ [PatchTxtFound; WillSearchFor (Py.strip (String "009" "DE AD "))])).
Proof.
  apply (choose_search_pattern_first_line default_search_pattern
           (String "009" "DE AD ") (String "013" (String "010" "BE EF"))
           recorded_world).
  - reflexivity.
  - reflexivity.
  - reflexivity.
  - discriminate.
Defined.

(** X13: without [patch.txt] the search pattern is the default one; the
    choice raises exactly when [patch.txt] exists and is empty, with an
    [IndexError] that no handler of [patch] catches; and it never changes a
    file or [patch.txt]. *)
Theorem choose_search_pattern_outcome (default : string) (w : world) :
  (patch_txt w = None ->
   choose_search_pattern default w
   = (Ok default,
      World (files w) (patch_txt w)
            (stdout w ++ [PatchTxtNotFound; WillSearchDefault default])))
  /\ (forall e,
        fst (choose_search_pattern default w) = Raise e <->
        patch_txt w = Some EmptyString /\ e = IndexError)
  /\ files (snd (choose_search_pattern default w)) = files w
  /\ patch_txt (snd (choose_search_pattern default w)) = patch_txt w.
Proof.
  pose proof (choose_search_pattern_result default w) as H.
  destruct (patch_txt w) as [text|] eqn:Hp.
  - destruct (readlines text) as [|line ls] eqn:Hr; rewrite H; cbn [fst snd].
    + apply readlines_nil in Hr as ->.
      split; [discriminate|]. split; [|now split].
      intros e. split; [now intros [= <-] | now intros [_ ->]].
    + split; [discriminate|]. split; [|now split].
      intros e. split; [discriminate|]. intros [[= ->] _]. discriminate Hr.
  - rewrite H. cbn [fst snd]. split; [reflexivity|]. split; [|now split].
    intros e. split; [discriminate | intros [? _]; discriminate].
Qed.

Lemma choose_search_pattern_outcome_witness :
  choose_search_pattern default_search_pattern title_world
  = (Ok default_search_pattern,
     World (files title_world) (patch_txt title_world)
           (stdout title_world
            ++ [PatchTxtNotFound; WillSearchDefault default_search_pattern])).
Proof.
  apply (proj1 (choose_search_pattern_outcome default_search_pattern title_world)).
  reflexivity.
Defined.

(** ** The whole run *)

Lemma patch_cases (width height : Z) (monitors : list monitor) (w : world) :
  patch (Some (width, height)) monitors w =
  match get_desktop_resolution monitors with
  | Raise e => (Raise e, announced width height w)
  | Ok (desktop_width, desktop_height) =>
      match patch_fields width height desktop_width desktop_height with
      | Raise e => (Raise e, announced width height w)
      | Ok f =>
          match choose_search_pattern default_search_pattern
                  (announced width height w) with
          | (Raise e, w1) => (Raise e, w1)
          | (Ok search_pattern, w1) =>
              edit_all game_paths search_pattern
                (build_replace_pattern (width_text f) (height_text f)) w1
          end
      end
  end.
Proof.
  unfold patch, bind, print, lift, announced.
  cbn [files patch_txt stdout]. rewrite <- app_assoc. cbn [app].
  destruct (get_desktop_resolution monitors) as [[dw dh]|e]; [|reflexivity].
  destruct (patch_fields width height dw dh) as [f|e]; [|reflexivity].
  destruct (choose_search_pattern default_search_pattern _) as [[sp|e] w1];
    [|reflexivity].
  unfold game_paths. cbn [edit_all]. unfold bind, ret.
  repeat match goal with
         | |- context [edit_dll ?p ?s ?r ?w0] =>
             destruct (edit_dll p s r w0) as [[[]|?] ?]; try reflexivity
         end.
Qed.

Lemma edit_all_step (game_path : string) (rest : list string)
    (search_pattern replace_pattern : string) (w : world) :
  edit_all (game_path :: rest) search_pattern replace_pattern w =
  match edit_dll game_path search_pattern replace_pattern w with
  | (Ok _, w') => edit_all rest search_pattern replace_pattern w'
  | (Raise e, w') => (Raise e, w')
  end.
Proof. reflexivity. Qed.

(** With patterns that parse, the sequence of edits returns normally; and
    either it recorded the replacement pattern, or it changed nothing and
    every file it went through was missing or without the search bytes. *)
Lemma edit_all_ok (search_pattern replace_pattern : string) (sp rp : bytes) :
  parse_signature search_pattern = Ok sp ->
  parse_signature replace_pattern = Ok rp ->
  forall paths w,
  exists w',
    edit_all paths search_pattern replace_pattern w = (Ok tt, w')
    /\ (patch_txt w' = Some replace_pattern
        \/ (files w' = files w /\ patch_txt w' = patch_txt w
            /\ Forall (untouched sp (files w)) paths)).
Proof.
  intros Hs Hr paths. induction paths as [|p ps IH]; intros w.
  - exists w. split; [reflexivity|]. right. repeat split. constructor.
  - rewrite edit_all_step, edit_dll_cases, Hs, Hr.
    destruct (files w !! p) as [data|] eqn:Hf;
      [destruct (Py.find_index sp data) as [i|] eqn:Hi|].
    + destruct (IH (World (<[p:=overwrite data i rp]> (files w))
                          (Some replace_pattern)
                          (stdout w ++ [Editing p;
                                        Found (Py.strip search_pattern) (Z.of_nat i);
                                        ReplacedWith replace_pattern (Z.of_nat i)])))
        as (w' & E & H).
      exists w'. split; [exact E|]. left.
      destruct H as [H|(_ & H & _)]; [exact H | exact H].
    + destruct (IH (World (files w) (patch_txt w)
                          (stdout w ++ [Editing p;
                                        CannotFind (Py.strip search_pattern);
                                        DeleteAndReinstall])))
        as (w' & E & H).
      exists w'. split; [exact E|].
      destruct H as [H|(H1 & H2 & H3)]; [now left | right].
      cbn [files patch_txt] in *. repeat split; try assumption.
      constructor; [|exact H3]. unfold untouched. now rewrite Hf.
    + destruct (IH (World (files w) (patch_txt w)
                          (stdout w ++ [Editing p; ErrorFileNotFound p])))
        as (w' & E & H).
      exists w'. split; [exact E|].
      destruct H as [H|(H1 & H2 & H3)]; [now left | right].
      cbn [files patch_txt] in *. repeat split; try assumption.
      constructor; [|exact H3]. unfold untouched. now rewrite Hf.
Qed.

(** With a search pattern and a replacement pattern of the same bytes, the
    sequence of edits leaves every file as it was. *)
Lemma edit_all_same (search_pattern replace_pattern : string) (bs : bytes) :
  parse_signature search_pattern = Ok bs ->
  parse_signature replace_pattern = Ok bs ->
  forall paths w,
  exists w',
    edit_all paths search_pattern replace_pattern w = (Ok tt, w')
    /\ files w' = files w.
Proof.
  intros Hs Hr paths. induction paths as [|p ps IH]; intros w.
  - now exists w.
  - rewrite edit_all_step, edit_dll_cases, Hs, Hr.
    destruct (files w !! p) as [data|] eqn:Hf;
      [destruct (Py.find_index bs data) as [i|] eqn:Hi|].
    + match goal with |- context [edit_all ps _ _ ?w1] =>
        destruct (IH w1) as (w' & E & H) end.
      exists w'. split; [exact E|]. rewrite H. cbn [files].
      destruct (find_index_Some _ _ _ Hi) as [(pre & post & -> & <-) _].
      rewrite overwrite_occurrence by reflexivity. now apply insert_id.
    + match goal with |- context [edit_all ps _ _ ?w1] =>
        destruct (IH w1) as (w' & E & H) end.
      exists w'. now split.
    + match goal with |- context [edit_all ps _ _ ?w1] =>
        destruct (IH w1) as (w' & E & H) end.
      exists w'. now split.
Qed.

Lemma edit_all_untouched (search_pattern replace_pattern : string)
    (sp rp : bytes) :
  parse_signature search_pattern = Ok sp ->
  parse_signature replace_pattern = Ok rp ->
  forall paths w,
  Forall (untouched sp (files w)) paths ->
  exists w',
    edit_all paths search_pattern replace_pattern w = (Ok tt, w')
    /\ files w' = files w /\ patch_txt w' = patch_txt w.
Proof.
  intros Hs Hr paths. induction paths as [|p ps IH]; intros w Hu.
  - now exists w.
  - inversion Hu as [|? ? Hp Hps]; subst.
    rewrite edit_all_step, edit_dll_cases, Hs, Hr.
    unfold untouched in Hp.
    destruct (files w !! p) as [data|] eqn:Hf; [rewrite Hp|];
      match goal with |- context [edit_all ps _ _ ?w1] =>
        destruct (IH w1 Hps) as (w' & E & H1 & H2) end;
      exists w'; now repeat split.
Qed.

Lemma edit_all_raises (search_pattern replace_pattern : string)
    (p : string) (ps : list string) (w : world) :
  (forall sp rp, ~ (parse_signature search_pattern = Ok sp
                    /\ parse_signature replace_pattern = Ok rp)) ->
  exists w',
    edit_all (p :: ps) search_pattern replace_pattern w = (Raise ValueError, w')
    /\ files w' = files w /\ patch_txt w' = patch_txt w.
Proof.
  intros H. rewrite edit_all_step, edit_dll_cases.
  pose proof (parse_signature_result search_pattern) as Rs.
  pose proof (parse_signature_result replace_pattern) as Rr.
  destruct (parse_signature search_pattern) as [sp|e1].
  - destruct (parse_signature replace_pattern) as [rp|e2].
    + now destruct (H sp rp).
    + destruct Rr as [-> _]. eexists. now repeat split.
  - destruct Rs as [-> _]. eexists. now repeat split.
Qed.

Lemma edit_all_frame (search_pattern replace_pattern : string)
    (paths : list string) (w : world) :
  let w' := snd (edit_all paths search_pattern replace_pattern w) in
  (forall path, ~ In path paths -> files w' !! path = files w !! path)
  /\ (forall path, is_Some (files w' !! path) <-> is_Some (files w !! path)).
Proof.
  revert w. induction paths as [|p ps IH]; intros w; cbn zeta.
  - split; reflexivity.
  - rewrite edit_all_step.
    destruct (edit_dll_effects p search_pattern replace_pattern w)
      as (F1 & F2 & _).
    destruct (edit_dll p search_pattern replace_pattern w) as [[[]|e] w1];
      cbn [snd] in F1, F2 |- *.
    + destruct (IH w1) as [I1 I2]. split.
      * intros path Hn. rewrite I1 by (intros Hin; apply Hn; now right).
        apply F1. intros ->. apply Hn. now left.
      * intros path. rewrite I2.
        destruct (String.eqb_spec path p) as [->|Hne]; [exact F2|].
        now rewrite F1.
    + split.
      * intros path Hn. apply F1. intros ->. apply Hn. now left.
      * intros path.
        destruct (String.eqb_spec path p) as [->|Hne]; [exact F2|].
        now rewrite F1.
Qed.

Lemma no_linebreak_app (s t : string) :
  no_linebreak (s +:+ t) = no_linebreak s && no_linebreak t.
Proof.
  induction s as [|c s IH]; [reflexivity|].
  rewrite append_cons. cbn [no_linebreak]. now rewrite IH, andb_assoc.
Qed.

Lemma format_02X_no_linebreak (b : byte) :
  no_linebreak (Py.format_02X b) = true.
Proof. destruct b; reflexivity. Qed.

Lemma hex_line_cons (b : byte) (bs : bytes) :
  hex_line (b :: bs) = Py.format_02X b +:+ " " +:+ hex_line bs.
Proof. reflexivity. Qed.

Lemma hex_line_no_linebreak (bs : bytes) : no_linebreak (hex_line bs) = true.
Proof.
  induction bs as [|b bs IH]; [reflexivity|].
  rewrite hex_line_cons, !no_linebreak_app, format_02X_no_linebreak, IH.
  reflexivity.
Qed.

Lemma hex_line_nonempty (b : byte) (bs : bytes) :
  hex_line (b :: bs) <> EmptyString.
Proof. rewrite hex_line_cons. unfold Py.format_02X. discriminate. Qed.

(** The replacement pattern of a run that got through its serialization
    is the line of a non-empty byte sequence. *)
Lemma replace_pattern_shape
    (width height desktop_width desktop_height : Z) (f : fields) :
  patch_fields width height desktop_width desktop_height = Ok f ->
  exists b bs,
    build_replace_pattern (width_text f) (height_text f) = hex_line (b :: bs).
Proof.
  unfold patch_fields.
  destruct (effective_resolution width height desktop_width desktop_height)
    as [w h].
  unfold serialize.
  destruct (centering_offset desktop_width w) as [o|]; [|discriminate].
  cbn [rbind].
  destruct (Py.to_bytes (Z.shiftl h 4) 4) as [sb|]; [|discriminate].
  cbn [rbind].
  destruct (Py.to_bytes w 4) as [wb|] eqn:Ew; [|discriminate]. cbn [rbind].
  destruct (Py.to_bytes h 4) as [hb|] eqn:Eh; [|discriminate]. cbn [rbind].
  destruct (Py.to_bytes o 4) as [ob|]; [|discriminate]. cbn [rbind].
  intros [= <-]. cbn [width_text height_text].
  apply to_bytes_inv in Ew as [_ ->]. apply to_bytes_inv in Eh as [_ ->].
  cbn [Py.le_bytes].
  rewrite build_replace_pattern_hex_line. cbn [replicate concat app]. eauto.
Qed.

Lemma get_desktop_resolution_raises (monitors : list monitor) (e : exn) :
  get_desktop_resolution monitors = Raise e -> e = IndexError.
Proof.
  unfold get_desktop_resolution.
  destruct (List.find is_primary monitors); [discriminate|].
  destruct monitors; [now intros [= <-] | discriminate].
Qed.

Lemma choose_search_pattern_keeps (default : string) (w : world) :
  files (snd (choose_search_pattern default w)) = files w
  /\ patch_txt (snd (choose_search_pattern default w)) = patch_txt w
  /\ (forall e, fst (choose_search_pattern default w) = Raise e ->
                e = IndexError)
  /\ forall w0,
       patch_txt w0 = patch_txt w ->
       fst (choose_search_pattern default w0)
       = fst (choose_search_pattern default w).
Proof.
  pose proof (choose_search_pattern_result default w) as H.
  split; [|split; [|split]].
  - destruct (patch_txt w) as [text|]; [destruct (readlines text)|];
      now rewrite H.
  - destruct (patch_txt w) as [text|] eqn:Hp; [destruct (readlines text)|];
      now rewrite H.
  - intros e. destruct (patch_txt w) as [text|]; [destruct (readlines text)|];
      rewrite H; cbn [fst]; congruence.
  - intros w0 E. pose proof (choose_search_pattern_result default w0) as H0.
    rewrite E in H0.
    destruct (patch_txt w) as [text|]; [destruct (readlines text)|];
      now rewrite H, H0.
Qed.

(** X14: when [patch] raises, it has written nothing: every file and
    [patch.txt] are as before the run, and the exception is the
    [IndexError] of an empty monitor list or an empty [patch.txt], the
    [OverflowError] of the serialization, or the [ValueError] of a pattern
    that does not parse. *)
Theorem patch_raises_before_writing
    (yaml_data : option (Z * Z)) (monitors : list monitor)
    (w w' : world) (e : exn) :
  patch yaml_data monitors w = (Raise e, w') ->
  files w' = files w /\ patch_txt w' = patch_txt w
  /\ (e = IndexError \/ e = OverflowError \/ e = ValueError).
Proof.
  destruct yaml_data as [[width height]|]; [|discriminate].
  rewrite patch_cases.
  destruct (get_desktop_resolution monitors) as [[dw dh]|e1] eqn:Ed.
  2:{ intros [= <- <-]. apply get_desktop_resolution_raises in Ed. auto. }
  destruct (patch_fields width height dw dh) as [f|e1] eqn:Ef.
  2:{ intros [= <- <-]. unfold patch_fields in Ef.
      destruct (effective_resolution width height dw dh) as [w0 h0].
      apply serialize_raises in Ef. auto. }
  destruct (choose_search_pattern_keeps default_search_pattern
              (announced width height w)) as (K1 & K2 & K3 & _).
  destruct (choose_search_pattern default_search_pattern
              (announced width height w)) as [[sp|e1] w1];
    cbn [fst snd] in K1, K2, K3.
  2:{ intros [= <- <-]. rewrite (K3 e1 eq_refl). auto. }
  set (rpat := build_replace_pattern (width_text f) (height_text f)).
  destruct (parse_signature sp) as [spb|es] eqn:Es.
  - destruct (parse_signature rpat) as [rpb|er] eqn:Er.
    + destruct (edit_all_ok sp rpat spb rpb Es Er game_paths w1)
        as (w2 & E & _).
      rewrite E. discriminate.
    + destruct (edit_all_raises sp rpat "../hackGU_terminal.dll"
                  (tl game_paths) w1) as (w2 & E & F1 & F2).
      { intros ? ? [_ H]. congruence. }
      change ("../hackGU_terminal.dll" :: tl game_paths) with game_paths in E.
      rewrite E. intros [= <- <-]. rewrite F1, F2, K1, K2. auto.
  - destruct (edit_all_raises sp rpat "../hackGU_terminal.dll"
                (tl game_paths) w1) as (w2 & E & F1 & F2).
    { intros ? ? [H _]. congruence. }
    change ("../hackGU_terminal.dll" :: tl game_paths) with game_paths in E.
    rewrite E. intros [= <- <-]. rewrite F1, F2, K1, K2. auto.
Qed.

Lemma patch_raises_before_writing_witness :
  files (World (files fresh_install) None [YamlWidth 2560; YamlHeight 1440])
  = files fresh_install
  /\ patch_txt (World (files fresh_install) None
                      [YamlWidth 2560; YamlHeight 1440])
     = patch_txt fresh_install
  /\ (OverflowError = IndexError \/ OverflowError = OverflowError
      \/ OverflowError = ValueError).
Proof.
  apply (patch_raises_before_writing (Some (2560, 1440)) desktop_1080p
           fresh_install
           (World (files fresh_install) None [YamlWidth 2560; YamlHeight 1440])
           OverflowError).
  vm_compute. reflexivity.
Defined.


(** X16: a second run of [patch] with the same configuration and monitors,
    on what a first run that returned normally left, returns normally and
    leaves every file as the first run left it. *)
Theorem patch_rerun_idempotent
    (yaml_data : option (Z * Z)) (monitors : list monitor) (w w1 : world) :
  patch yaml_data monitors w = (Ok tt, w1) ->
  exists w2,
    patch yaml_data monitors w1 = (Ok tt, w2) /\ files w2 = files w1.
Proof.
  destruct yaml_data as [[width height]|].
  2:{ intros [= <-]. now exists w. }
  rewrite !patch_cases.
  destruct (get_desktop_resolution monitors) as [[dw dh]|e1]; [|discriminate].
  destruct (patch_fields width height dw dh) as [f|e1] eqn:Ef; [|discriminate].
  destruct (replace_pattern_shape _ _ _ _ _ Ef) as (b & bs & Eshape).
  set (rpat := build_replace_pattern (width_text f) (height_text f)) in *.
  destruct (choose_search_pattern_keeps default_search_pattern
              (announced width height w)) as (K1 & K2 & _ & K4).
  destruct (choose_search_pattern default_search_pattern
              (announced width height w)) as [[sp|e1] wa] eqn:Ec;
    [|discriminate].
  cbn [fst snd announced files patch_txt] in K1, K2, K4.
  intros Hrun.
  assert (Hparse : exists spb rpb,
             parse_signature sp = Ok spb /\ parse_signature rpat = Ok rpb).
  { destruct (parse_signature sp) as [spb|es] eqn:Es;
      [destruct (parse_signature rpat) as [rpb|er] eqn:Er; [eauto|]|];
      destruct (edit_all_raises sp rpat "../hackGU_terminal.dll"
                  (tl game_paths) wa) as (w2 & E & _);
      try (intros ? ? [? ?]; congruence);
      change ("../hackGU_terminal.dll" :: tl game_paths) with game_paths in E;
      rewrite E in Hrun; discriminate Hrun. }
  destruct Hparse as (spb & rpb & Es & Er).
  destruct (edit_all_ok sp rpat spb rpb Es Er game_paths wa) as (w1' & E & H).
  rewrite E in Hrun. injection Hrun as <-.
  destruct H as [Hrec | (Hf & Hp & Hu)].
  - (* the first run recorded the pattern: the second searches for it *)
    assert (Hc : choose_search_pattern default_search_pattern
                   (announced width height w1')
                 = (Ok (Py.strip rpat),
                    World (files w1') (patch_txt w1')
                          (stdout (announced width height w1')
                           ++ [PatchTxtFound; WillSearchFor (Py.strip rpat)]))).
    { apply (choose_search_pattern_line default_search_pattern rpat
               EmptyString (announced width height w1')).
      - cbn [announced patch_txt]. now rewrite append_empty_r.
      - rewrite Eshape. apply hex_line_no_linebreak.
      - exact I.
      - rewrite append_empty_r, Eshape. apply hex_line_nonempty. }
    rewrite Hc.
    destruct (edit_all_same (Py.strip rpat) rpat rpb
                ltac:(now rewrite parse_signature_strip) Er game_paths
                (World (files w1') (patch_txt w1')
                       (stdout (announced width height w1')
                        ++ [PatchTxtFound; WillSearchFor (Py.strip rpat)])))
      as (w2 & E2 & F2).
    exists w2. split; [exact E2 | exact F2].
  - (* the first run found nothing: the second meets the same files *)
    destruct (choose_search_pattern_keeps default_search_pattern
                (announced width height w1')) as (L1 & L2 & _).
    specialize (K4 (announced width height w1')).
    cbn [announced patch_txt] in K4. rewrite Hp, K2 in K4.
    specialize (K4 eq_refl).
    destruct (choose_search_pattern default_search_pattern
                (announced width height w1')) as [r2 wb].
    cbn [fst snd announced files patch_txt] in K4, L1, L2. subst r2.
    destruct (edit_all_untouched sp rpat spb rpb Es Er game_paths wb)
      as (w2 & E2 & F2 & _).
    { now rewrite L1, Hf. }
    exists w2. split; [exact E2|]. now rewrite F2, L1.
Qed.

Lemma patch_rerun_idempotent_witness :
  exists w2,
    patch (Some (1280, 720)) desktop_1080p (snd first_run) = (Ok tt, w2)
    /\ files w2 = files (snd first_run).
Proof.
  apply (patch_rerun_idempotent (Some (1280, 720)) desktop_1080p
           fresh_install (snd first_run)).
  vm_compute. reflexivity.
Defined.

Lemma game_paths_NoDup : List.NoDup game_paths.
Proof.
  unfold game_paths.
  repeat (constructor;
          [cbn [In]; intros H;
           repeat (destruct H as [H|H]; [discriminate H|]); exact H|]).
  constructor.
Qed.

(** What the sequence of edits leaves at one of its paths: the outcome of
    the one edit of that path. *)
Lemma edit_all_at (search_pattern replace_pattern : string) (sp rp : bytes)
    (path : string) (data : bytes) :
  parse_signature search_pattern = Ok sp ->
  parse_signature replace_pattern = Ok rp ->
  forall paths w,
  List.NoDup paths -> In path paths -> files w !! path = Some data ->
  files (snd (edit_all paths search_pattern replace_pattern w)) !! path
  = Some match Py.find_index sp data with
         | Some i => overwrite data i rp
         | None => data
         end.
Proof.
  intros Hs Hr paths. induction paths as [|p ps IH]; intros w Hnd Hin Hf.
  - destruct Hin.
  - inversion Hnd as [|? ? Hnotin Hnd']; subst.
    rewrite edit_all_step.
    destruct (String.eqb_spec p path) as [->|Hne].
    + rewrite edit_dll_cases, Hs, Hr, Hf.
      destruct (Py.find_index sp data) as [i|];
        match goal with |- context [edit_all ps _ _ ?w1] =>
          rewrite (proj1 (edit_all_frame search_pattern replace_pattern ps w1)
                     path Hnotin) end;
        cbn [files]; [apply lookup_insert_eq | exact Hf].
    + destruct Hin as [Hin|Hin]; [congruence|].
      destruct (edit_dll_effects p search_pattern replace_pattern w)
        as (F1 & _).
      destruct (edit_all_ok search_pattern replace_pattern sp rp Hs Hr [p] w)
        as (w1 & E1 & _).
      rewrite edit_all_step in E1.
      destruct (edit_dll p search_pattern replace_pattern w) as [[[]|e] w1'];
        [|discriminate E1].
      cbn [snd] in F1. apply IH; [assumption..|].
      rewrite F1 by congruence. exact Hf.
Qed.

(** X17: on a desktop with a monitor and for an effective resolution that
    serializes, when the search bytes (the default table without
    [patch.txt], the recorded 120 bytes with it) occur in one of the six
    libraries, first at the offset [length pre], [patch] returns normally,
    that library becomes the same bytes with the table replaced by 15
    copies of the width and height bytes, and [patch.txt] records that
    table. *)
Theorem patch_replaces_table
    (width height : Z) (monitors : list monitor) (w : world)
    (desktop_width desktop_height w0 h0 : Z) (sp : bytes)
    (path : string) (pre post : bytes) :
  get_desktop_resolution monitors = Ok (desktop_width, desktop_height) ->
  effective_resolution width height desktop_width desktop_height = (w0, h0) ->
  0 <= w0 < 2 ^ 32 ->
  0 <= h0 < 2 ^ 28 ->
  w0 <= desktop_width + 1 ->
  desktop_width < 2 ^ 32 ->
  (patch_txt w = None /\ sp = resolution_table)
  \/ (patch_txt w = Some (hex_line sp) /\ length sp = 120%nat) ->
  In path game_paths ->
  files w !! path = Some (pre ++ sp ++ post) ->
  (forall j, (j < length pre)%nat -> ~ occurs_at sp (pre ++ sp ++ post) j) ->
  let table := concat (replicate 15 (Py.le_bytes 4 w0 ++ Py.le_bytes 4 h0)) in
  exists w',
    patch (Some (width, height)) monitors w = (Ok tt, w')
    /\ files w' !! path = Some (pre ++ table ++ post)
    /\ patch_txt w' = Some (hex_line table).
Proof.
  intros Hd He Hw Hh Hle Hdw Hsrc Hin Hf Hfirst table.
  rewrite patch_cases, Hd. unfold patch_fields. rewrite He.
  destruct (quot2_bounds (desktop_width - w0) (2 ^ 32) ltac:(lia)) as [Q0 Q1].
  rewrite serialize_run by lia.
  rewrite to_bytes_ok by (rewrite pow_256_4; lia).
  cbn [width_text height_text].
  assert (Hrp : build_replace_pattern (Py.hex_text (Py.le_bytes 4 w0))
                  (Py.hex_text (Py.le_bytes 4 h0)) = hex_line table).
  { unfold table. cbn [Py.le_bytes]. apply build_replace_pattern_hex_line. }
  rewrite Hrp. clear Hrp.
  assert (Hlen : length sp = 120%nat).
  { destruct Hsrc as [[_ ->]|[_ H]]; [reflexivity | exact H]. }
  assert (Hc : exists s wa,
             choose_search_pattern default_search_pattern
               (announced width height w) = (Ok s, wa)
             /\ parse_signature s = Ok sp
             /\ files wa = files w).
  { pose proof (choose_search_pattern_result default_search_pattern
                  (announced width height w)) as H.
    cbn [announced patch_txt files stdout] in H.
    destruct Hsrc as [[Hp ->]|[Hp _]].
    - rewrite Hp in H. eexists _, _. split; [exact H|].
      split; [vm_compute; reflexivity | reflexivity].
    - destruct sp as [|b bs]; [discriminate Hlen|].
      eexists _, _. split.
      + apply (choose_search_pattern_line default_search_pattern
                 (hex_line (b :: bs)) EmptyString).
        * cbn [announced patch_txt]. now rewrite append_empty_r.
        * apply hex_line_no_linebreak.
        * exact I.
        * rewrite append_empty_r. apply hex_line_nonempty.
      + split; [|reflexivity].
        now rewrite parse_signature_strip, parse_signature_hex_line. }
  destruct Hc as (s & wa & -> & Hs & Hfa).
  pose proof (parse_signature_hex_line table) as Hr.
  destruct (edit_all_ok s (hex_line table) sp table Hs Hr game_paths wa)
    as (w' & E & Hrec).
  exists w'. split; [exact E|].
  pose proof (edit_all_at s (hex_line table) sp table path
                (pre ++ sp ++ post) Hs Hr game_paths wa game_paths_NoDup Hin
                ltac:(now rewrite Hfa)) as Hat.
  rewrite E in Hat. cbn [snd] in Hat.
  rewrite (find_index_first sp (pre ++ sp ++ post) (length pre)) in Hat;
    [|now exists pre, post | exact Hfirst].
  rewrite overwrite_occurrence in Hat by (rewrite Hlen; reflexivity).
  split; [exact Hat|].
  destruct Hrec as [Hrec|(_ & _ & Hu)]; [exact Hrec|].
  exfalso. pose proof (proj1 (List.Forall_forall _ _) Hu path Hin) as Hp.
  unfold untouched in Hp. rewrite Hfa, Hf in Hp.
  rewrite (find_index_first sp (pre ++ sp ++ post) (length pre)) in Hp;
    [discriminate Hp | now exists pre, post | exact Hfirst].
Qed.

Lemma patch_replaces_table_witness :
  exists w',
    patch (Some (1280, 720)) desktop_1080p fresh_install = (Ok tt, w')
    /\ files w' !! "../hackGU_title.dll"
       = Some ([x4d; x5a]
               ++ concat (replicate 15 (Py.le_bytes 4 1280 ++ Py.le_bytes 4 720))
               ++ [x00])
    /\ patch_txt w'
       = Some (hex_line
                 (concat (replicate 15 (Py.le_bytes 4 1280 ++ Py.le_bytes 4 720)))).
Proof.
  apply (patch_replaces_table 1280 720 desktop_1080p fresh_install
           1920 1080 1280 720 resolution_table
           "../hackGU_title.dll" [x4d; x5a] [x00]).
  - reflexivity.
  - reflexivity.
  - lia.
  - lia.
  - lia.
  - lia.
  - left. split; reflexivity.
  - right. left. reflexivity.
  - reflexivity.
  - intros j Hj.
    assert (Hk : Py.find_index resolution_table
                   ([x4d; x5a] ++ resolution_table ++ [x00]) = Some 2%nat)
      by (vm_compute; reflexivity).
    apply (proj2 (find_index_Some _ _ _ Hk) j). exact Hj.
Defined.
